(** * The storybook controller: a shallow embedding of
      [storybook_controller/storybook_fsm.py]

    The class [StorybookFSM] is a Python object whose attributes are
    mutated by ROS callbacks, by the consumer of its event queue and by
    the callbacks of a [transitions.Machine].  The embedding is a record
    of the attributes, threaded through a state-and-exception monad.

    Conventions.
    - An attribute that [__init__] sets to [None] is an [option]; using
      [None] where Python needs a number or a sequence raises
      [TypeError], calling a method on it raises [AttributeError].
    - [sys.exit(1)] is the exception [SystemExit 1].
    - The two collaborators are kept by what the controller can see of
      them: [ros] is the list of the calls made on the node manager,
      oldest first; the student model is the list of the calls made on
      it, with the answers it gives as functions.
    - Console output ([print]) is not part of the embedding. *)

From Stdlib Require Import ZArith List String Bool Lia.
From stdpp Require Import base decidable option list.
Import ListNotations.
Local Open Scope string_scope.
Local Open Scope list_scope.
Local Open Scope Z_scope.

(** ** Vocabulary *)

(** The states of the machine, [self.states]. *)
Inductive fsm_state : Type :=
| APP_START
| BEGIN_EXPLORE
| BEGIN_EVALUATE
| WAITING_FOR_STORY_LOAD
| WAITING_FOR_NEXT_PAGE
| WAITING_FOR_CHILD_AUDIO
| WAITING_FOR_END_PAGE_JIBO_QUESTION
| WAITING_FOR_END_PAGE_CHILD_RESPONSE
| WAITING_FOR_NEXT_PAGE_JIBO_INTERLUDE
| END_STORY
| WAITING_FOR_END_STORY_CHILD_AUDIO
| END_EVALUATE.

#[global] Instance fsm_state_eq_dec : EqDecision fsm_state.
Proof. solve_decision. Defined.

(** The constants of [StorybookEvent] that the file names; [OTHER_EVENT]
    stands for an [event_type] that is none of them. *)
Inductive StorybookEvent : Type :=
| HELLO_WORLD
| SPEECH_ACE_RESULT
| WORD_TAPPED
| SCENE_OBJECT_TAPPED
| SENTENCE_SWIPED
| RECORD_AUDIO_COMPLETE
| STORY_SELECTED
| STORY_LOADED
| EVALUATE_MODE_SELECTED
| OTHER_EVENT (code : Z).

#[global] Instance StorybookEvent_eq_dec : EqDecision StorybookEvent.
Proof. solve_decision. Defined.

(** What [json.loads] returns.  The payloads of the protocol are flat
    objects, so the values inside an object are kept apart from objects;
    [JOther] is a value that the controller only passes on. *)
Inductive jval : Type :=
| JNull
| JBool (b : bool)
| JInt (z : Z)
| JStr (s : string)
| JOther.

Inductive json : Type :=
| JValue (v : jval)
| JObject (fields : list (string * jval)).

(** An inbound [StorybookEvent] message; [message] is JSON text. *)
Record storybook_event : Type := mkEvent {
  event_type : StorybookEvent;
  message : string
}.

(** [StorybookState] modes; [OTHER_MODE] stands for a [storybook_mode]
    that is none of the three constants. *)
Inductive storybook_mode : Type :=
| NOT_READING
| EXPLORE_MODE
| EVALUATE_MODE
| OTHER_MODE (code : Z).

#[global] Instance storybook_mode_eq_dec : EqDecision storybook_mode.
Proof. solve_decision. Defined.

(** [StorybookCommand] constants used by the controller. *)
Inductive StorybookCommand : Type :=
| PING_TEST
| SET_STORYBOOK_MODE
| SHOW_LIBRARY_PANEL
| NEXT_PAGE
| SHOW_NEXT_SENTENCE
| START_RECORD
| CANCEL_RECORD
| GO_TO_END_PAGE.

(** [JiboStorybookBehaviors] constants used by the controller. *)
Inductive JiboStorybookBehaviors : Type :=
| HAPPY_ANIM
| QUESTION_ANIM
| HAPPY_DANCE
| SPEAK.

Inductive JiboAsrCommand : Type := START.

(** Values passed in parameter dictionaries and argument lists. *)
Inductive pyval : Type :=
| PInt (z : Z)
| PBool (b : bool)
| PStr (s : string)
| PMode (m : storybook_mode)
| PDec (digits : string).  (* a float literal, as written *)

(** One call on the ROS node manager. *)
Inductive ros_call : Type :=
| send_storybook_command (c : StorybookCommand)
                         (params : option (list (string * pyval)))
| send_jibo_command (b : JiboStorybookBehaviors) (args : list pyval)
| send_jibo_asr_command (c : JiboAsrCommand).

(** [EndPageQuestionType] tags used by the controller. *)
Inductive EndPageQuestionType : Type :=
| WORD_TAP
| SCENE_OBJECT_TAP
| WORD_PRONOUNCE.

#[global] Instance EndPageQuestionType_eq_dec : EqDecision EndPageQuestionType.
Proof. solve_decision. Defined.

(** An end-page question object of the student model: its tag, what
    [ask_question(ros)] sends, and the verdict of [try_answer]. *)
Record end_page_question : Type := mkQuestion {
  question_type : EndPageQuestionType;
  ask_question : list ros_call;
  try_answer : jval -> bool
}.

(** One call on the student model. *)
Inductive student_call : Type :=
| update_with_duration (duration : jval) (text : jval)
| update_with_speechace_result (result : json)
| update_sentences (page_number : Z) (sentences : list string)
| update_with_explore_word_tapped (word : string)
| update_with_explore_scene_object_tapped (label : jval)
| question_try_answer (qt : EndPageQuestionType) (query : jval)
                      (verdict : bool).

(** The student model: its answers and the calls made on it so far. *)
Record student_model_t : Type := mkStudent {
  is_child_turn : Z -> bool;
  get_end_page_questions : list end_page_question;
  student_calls : list student_call
}.

(** A [threading.Timer] object. [started] is set by [start()], which
    arms the countdown; [finished] is set by [cancel()]. *)
Record timer : Type := mkTimer {
  interval : Z;
  started : bool;
  finished : bool
}.

(** ** The controller object *)

Record fsm : Type := mkFSM {
  event_queue : list storybook_event;
  ros : list ros_call;
  student_model : student_model_t;
  jibo_tts_on : bool;
  jibo_asr_empty : bool;
  current_storybook_mode : option storybook_mode;
  current_story : option string;
  current_story_needs_download : option jval;
  num_story_pages : option Z;
  current_page_number : option Z;
  current_tinkertexts : option (list string);
  current_scene_objects : option (list string);
  current_sentences : option (list string);
  reported_evaluating_sentence_index : option Z;
  storybook_audio_playing : option bool;
  storybook_audio_file : option string;
  child_audio_evaluate_timer : option nat;  (* reference into [timers] *)
  child_audio_finish_timeout_seconds : option Z;
  end_page_questions : list end_page_question;
  end_page_question_idx : option Z;
  state : fsm_state;                        (* set by the machine *)
  timers : list timer                       (* the Timer objects made *)
}.

Definition CHILD_AUDIO_SILENCE_TIMEOUT_SECONDS : Z := 8.

Definition STORYBOOK_EVENT_MESSAGES : list StorybookEvent :=
  [ HELLO_WORLD;
    SPEECH_ACE_RESULT;
    WORD_TAPPED;
    SCENE_OBJECT_TAPPED;
    SENTENCE_SWIPED;
    RECORD_AUDIO_COMPLETE;
    STORY_SELECTED;
    STORY_LOADED ].

Definition initial_state : fsm_state := APP_START.

(** [StorybookFSM.__init__]. *)
Definition init (student : student_model_t) : fsm :=
  {| event_queue := [];
     ros := [];
     student_model := student;
     jibo_tts_on := false;
     jibo_asr_empty := true;
     current_storybook_mode := None;
     current_story := None;
     current_story_needs_download := None;
     num_story_pages := None;
     current_page_number := None;
     current_tinkertexts := None;
     current_scene_objects := None;
     current_sentences := None;
     reported_evaluating_sentence_index := None;
     storybook_audio_playing := None;
     storybook_audio_file := None;
     child_audio_evaluate_timer := None;
     child_audio_finish_timeout_seconds := None;
     end_page_questions := [];
     end_page_question_idx := None;
     state := initial_state;
     timers := [] |}.

(** ** Exceptions and the monad of methods *)

Inductive failure : Type :=
| SystemExit (code : Z)
| TypeError
| AttributeError
| IndexError
| KeyError
| NameError
| ValueError
| MachineError
| Exception_ (msg : string).

(** How a method call ends: normally with a value, or with an exception
    that leaves the method; either way the object is in some state. *)
Inductive outcome (A : Type) : Type :=
| Done (a : A) (s : fsm)
| Abort (e : failure) (s : fsm).
Arguments Done {A} a s.
Arguments Abort {A} e s.

Definition M (A : Type) : Type := fsm -> outcome A.

Definition ret {A} (a : A) : M A := fun s => Done a s.

Definition raise {A} (e : failure) : M A := fun s => Abort e s.

Definition bind {A B} (m : M A) (k : A -> M B) : M B :=
  fun s => match m s with
           | Done a s' => k a s'
           | Abort e s' => Abort e s'
           end.

Notation "x <- m ;; k" := (bind m (fun x => k))
  (at level 100, m at next level, right associativity).
Notation "m ;; k" := (bind m (fun _ => k))
  (at level 100, right associativity).

Definition get {A} (f : fsm -> A) : M A := fun s => Done (f s) s.

Definition modify (f : fsm -> fsm) : M unit := fun s => Done tt (f s).

(** The object after a call, however the call ended. *)
Definition final {A} (o : outcome A) : fsm :=
  match o with Done _ s => s | Abort _ s => s end.

(** [None] where a number is needed. *)
Definition as_int (o : option Z) : M Z :=
  match o with Some z => ret z | None => raise TypeError end.

(** [len(x)]. *)
Definition len {A} (o : option (list A)) : M Z :=
  match o with
  | Some l => ret (Z.of_nat (length l))
  | None => raise TypeError
  end.

(** ** Attribute assignment *)

Definition set_state (v : fsm_state) (s : fsm) : fsm :=
  {| event_queue := event_queue s; ros := ros s;
     student_model := student_model s;
     jibo_tts_on := jibo_tts_on s; jibo_asr_empty := jibo_asr_empty s;
     current_storybook_mode := current_storybook_mode s;
     current_story := current_story s;
     current_story_needs_download := current_story_needs_download s;
     num_story_pages := num_story_pages s;
     current_page_number := current_page_number s;
     current_tinkertexts := current_tinkertexts s;
     current_scene_objects := current_scene_objects s;
     current_sentences := current_sentences s;
     reported_evaluating_sentence_index :=
       reported_evaluating_sentence_index s;
     storybook_audio_playing := storybook_audio_playing s;
     storybook_audio_file := storybook_audio_file s;
     child_audio_evaluate_timer := child_audio_evaluate_timer s;
     child_audio_finish_timeout_seconds :=
       child_audio_finish_timeout_seconds s;
     end_page_questions := end_page_questions s;
     end_page_question_idx := end_page_question_idx s;
     state := v;
     timers := timers s |}.

Definition set_event_queue (v : list storybook_event) (s : fsm) : fsm :=
  {| event_queue := v; ros := ros s;
     student_model := student_model s;
     jibo_tts_on := jibo_tts_on s; jibo_asr_empty := jibo_asr_empty s;
     current_storybook_mode := current_storybook_mode s;
     current_story := current_story s;
     current_story_needs_download := current_story_needs_download s;
     num_story_pages := num_story_pages s;
     current_page_number := current_page_number s;
     current_tinkertexts := current_tinkertexts s;
     current_scene_objects := current_scene_objects s;
     current_sentences := current_sentences s;
     reported_evaluating_sentence_index :=
       reported_evaluating_sentence_index s;
     storybook_audio_playing := storybook_audio_playing s;
     storybook_audio_file := storybook_audio_file s;
     child_audio_evaluate_timer := child_audio_evaluate_timer s;
     child_audio_finish_timeout_seconds :=
       child_audio_finish_timeout_seconds s;
     end_page_questions := end_page_questions s;
     end_page_question_idx := end_page_question_idx s;
     state := state s;
     timers := timers s |}.

Definition set_ros (v : list ros_call) (s : fsm) : fsm :=
  {| event_queue := event_queue s; ros := v;
     student_model := student_model s;
     jibo_tts_on := jibo_tts_on s; jibo_asr_empty := jibo_asr_empty s;
     current_storybook_mode := current_storybook_mode s;
     current_story := current_story s;
     current_story_needs_download := current_story_needs_download s;
     num_story_pages := num_story_pages s;
     current_page_number := current_page_number s;
     current_tinkertexts := current_tinkertexts s;
     current_scene_objects := current_scene_objects s;
     current_sentences := current_sentences s;
     reported_evaluating_sentence_index :=
       reported_evaluating_sentence_index s;
     storybook_audio_playing := storybook_audio_playing s;
     storybook_audio_file := storybook_audio_file s;
     child_audio_evaluate_timer := child_audio_evaluate_timer s;
     child_audio_finish_timeout_seconds :=
       child_audio_finish_timeout_seconds s;
     end_page_questions := end_page_questions s;
     end_page_question_idx := end_page_question_idx s;
     state := state s;
     timers := timers s |}.

Definition set_student_calls (v : list student_call) (s : fsm) : fsm :=
  {| event_queue := event_queue s; ros := ros s;
     student_model :=
       {| is_child_turn := is_child_turn (student_model s);
          get_end_page_questions :=
            get_end_page_questions (student_model s);
          student_calls := v |};
     jibo_tts_on := jibo_tts_on s; jibo_asr_empty := jibo_asr_empty s;
     current_storybook_mode := current_storybook_mode s;
     current_story := current_story s;
     current_story_needs_download := current_story_needs_download s;
     num_story_pages := num_story_pages s;
     current_page_number := current_page_number s;
     current_tinkertexts := current_tinkertexts s;
     current_scene_objects := current_scene_objects s;
     current_sentences := current_sentences s;
     reported_evaluating_sentence_index :=
       reported_evaluating_sentence_index s;
     storybook_audio_playing := storybook_audio_playing s;
     storybook_audio_file := storybook_audio_file s;
     child_audio_evaluate_timer := child_audio_evaluate_timer s;
     child_audio_finish_timeout_seconds :=
       child_audio_finish_timeout_seconds s;
     end_page_questions := end_page_questions s;
     end_page_question_idx := end_page_question_idx s;
     state := state s;
     timers := timers s |}.

(** Assigns [self.child_audio_evaluate_timer] and records the Timer
    objects as they now are. *)
Definition set_timer (h : option nat) (ts : list timer) (s : fsm) : fsm :=
  {| event_queue := event_queue s; ros := ros s;
     student_model := student_model s;
     jibo_tts_on := jibo_tts_on s; jibo_asr_empty := jibo_asr_empty s;
     current_storybook_mode := current_storybook_mode s;
     current_story := current_story s;
     current_story_needs_download := current_story_needs_download s;
     num_story_pages := num_story_pages s;
     current_page_number := current_page_number s;
     current_tinkertexts := current_tinkertexts s;
     current_scene_objects := current_scene_objects s;
     current_sentences := current_sentences s;
     reported_evaluating_sentence_index :=
       reported_evaluating_sentence_index s;
     storybook_audio_playing := storybook_audio_playing s;
     storybook_audio_file := storybook_audio_file s;
     child_audio_evaluate_timer := h;
     child_audio_finish_timeout_seconds :=
       child_audio_finish_timeout_seconds s;
     end_page_questions := end_page_questions s;
     end_page_question_idx := end_page_question_idx s;
     state := state s;
     timers := ts |}.

Definition set_end_page_questions (v : list end_page_question) (s : fsm)
  : fsm :=
  {| event_queue := event_queue s; ros := ros s;
     student_model := student_model s;
     jibo_tts_on := jibo_tts_on s; jibo_asr_empty := jibo_asr_empty s;
     current_storybook_mode := current_storybook_mode s;
     current_story := current_story s;
     current_story_needs_download := current_story_needs_download s;
     num_story_pages := num_story_pages s;
     current_page_number := current_page_number s;
     current_tinkertexts := current_tinkertexts s;
     current_scene_objects := current_scene_objects s;
     current_sentences := current_sentences s;
     reported_evaluating_sentence_index :=
       reported_evaluating_sentence_index s;
     storybook_audio_playing := storybook_audio_playing s;
     storybook_audio_file := storybook_audio_file s;
     child_audio_evaluate_timer := child_audio_evaluate_timer s;
     child_audio_finish_timeout_seconds :=
       child_audio_finish_timeout_seconds s;
     end_page_questions := v;
     end_page_question_idx := end_page_question_idx s;
     state := state s;
     timers := timers s |}.

Definition set_end_page_question_idx (v : option Z) (s : fsm) : fsm :=
  {| event_queue := event_queue s; ros := ros s;
     student_model := student_model s;
     jibo_tts_on := jibo_tts_on s; jibo_asr_empty := jibo_asr_empty s;
     current_storybook_mode := current_storybook_mode s;
     current_story := current_story s;
     current_story_needs_download := current_story_needs_download s;
     num_story_pages := num_story_pages s;
     current_page_number := current_page_number s;
     current_tinkertexts := current_tinkertexts s;
     current_scene_objects := current_scene_objects s;
     current_sentences := current_sentences s;
     reported_evaluating_sentence_index :=
       reported_evaluating_sentence_index s;
     storybook_audio_playing := storybook_audio_playing s;
     storybook_audio_file := storybook_audio_file s;
     child_audio_evaluate_timer := child_audio_evaluate_timer s;
     child_audio_finish_timeout_seconds :=
       child_audio_finish_timeout_seconds s;
     end_page_questions := end_page_questions s;
     end_page_question_idx := v;
     state := state s;
     timers := timers s |}.

Definition set_jibo_tts_on (v : bool) (s : fsm) : fsm :=
  {| event_queue := event_queue s;
     ros := ros s;
     student_model := student_model s;
     jibo_tts_on := v;
     jibo_asr_empty := jibo_asr_empty s;
     current_storybook_mode := current_storybook_mode s;
     current_story := current_story s;
     current_story_needs_download := current_story_needs_download s;
     num_story_pages := num_story_pages s;
     current_page_number := current_page_number s;
     current_tinkertexts := current_tinkertexts s;
     current_scene_objects := current_scene_objects s;
     current_sentences := current_sentences s;
     reported_evaluating_sentence_index :=
       reported_evaluating_sentence_index s;
     storybook_audio_playing := storybook_audio_playing s;
     storybook_audio_file := storybook_audio_file s;
     child_audio_evaluate_timer := child_audio_evaluate_timer s;
     child_audio_finish_timeout_seconds :=
       child_audio_finish_timeout_seconds s;
     end_page_questions := end_page_questions s;
     end_page_question_idx := end_page_question_idx s;
     state := state s;
     timers := timers s |}.

Definition set_jibo_asr_empty (v : bool) (s : fsm) : fsm :=
  {| event_queue := event_queue s;
     ros := ros s;
     student_model := student_model s;
     jibo_tts_on := jibo_tts_on s;
     jibo_asr_empty := v;
     current_storybook_mode := current_storybook_mode s;
     current_story := current_story s;
     current_story_needs_download := current_story_needs_download s;
     num_story_pages := num_story_pages s;
     current_page_number := current_page_number s;
     current_tinkertexts := current_tinkertexts s;
     current_scene_objects := current_scene_objects s;
     current_sentences := current_sentences s;
     reported_evaluating_sentence_index :=
       reported_evaluating_sentence_index s;
     storybook_audio_playing := storybook_audio_playing s;
     storybook_audio_file := storybook_audio_file s;
     child_audio_evaluate_timer := child_audio_evaluate_timer s;
     child_audio_finish_timeout_seconds :=
       child_audio_finish_timeout_seconds s;
     end_page_questions := end_page_questions s;
     end_page_question_idx := end_page_question_idx s;
     state := state s;
     timers := timers s |}.

Definition set_current_story_needs_download (v : option jval) (s : fsm)
  : fsm :=
  {| event_queue := event_queue s;
     ros := ros s;
     student_model := student_model s;
     jibo_tts_on := jibo_tts_on s;
     jibo_asr_empty := jibo_asr_empty s;
     current_storybook_mode := current_storybook_mode s;
     current_story := current_story s;
     current_story_needs_download := v;
     num_story_pages := num_story_pages s;
     current_page_number := current_page_number s;
     current_tinkertexts := current_tinkertexts s;
     current_scene_objects := current_scene_objects s;
     current_sentences := current_sentences s;
     reported_evaluating_sentence_index :=
       reported_evaluating_sentence_index s;
     storybook_audio_playing := storybook_audio_playing s;
     storybook_audio_file := storybook_audio_file s;
     child_audio_evaluate_timer := child_audio_evaluate_timer s;
     child_audio_finish_timeout_seconds :=
       child_audio_finish_timeout_seconds s;
     end_page_questions := end_page_questions s;
     end_page_question_idx := end_page_question_idx s;
     state := state s;
     timers := timers s |}.

(** The four assignments of [storybook_page_info_ros_message_handler]. *)
Definition set_page (number : Z)
    (sentences objects tinkertexts : list string) (s : fsm) : fsm :=
  {| event_queue := event_queue s;
     ros := ros s;
     student_model := student_model s;
     jibo_tts_on := jibo_tts_on s;
     jibo_asr_empty := jibo_asr_empty s;
     current_storybook_mode := current_storybook_mode s;
     current_story := current_story s;
     current_story_needs_download := current_story_needs_download s;
     num_story_pages := num_story_pages s;
     current_page_number := Some number;
     current_tinkertexts := Some tinkertexts;
     current_scene_objects := Some objects;
     current_sentences := Some sentences;
     reported_evaluating_sentence_index :=
       reported_evaluating_sentence_index s;
     storybook_audio_playing := storybook_audio_playing s;
     storybook_audio_file := storybook_audio_file s;
     child_audio_evaluate_timer := child_audio_evaluate_timer s;
     child_audio_finish_timeout_seconds :=
       child_audio_finish_timeout_seconds s;
     end_page_questions := end_page_questions s;
     end_page_question_idx := end_page_question_idx s;
     state := state s;
     timers := timers s |}.

(** The six assignments of [storybook_state_ros_message_handler]. *)
Definition set_story (mode : storybook_mode) (story : string)
    (pages index : Z) (playing : bool) (file : string) (s : fsm) : fsm :=
  {| event_queue := event_queue s;
     ros := ros s;
     student_model := student_model s;
     jibo_tts_on := jibo_tts_on s;
     jibo_asr_empty := jibo_asr_empty s;
     current_storybook_mode := Some mode;
     current_story := Some story;
     current_story_needs_download := current_story_needs_download s;
     num_story_pages := Some pages;
     current_page_number := current_page_number s;
     current_tinkertexts := current_tinkertexts s;
     current_scene_objects := current_scene_objects s;
     current_sentences := current_sentences s;
     reported_evaluating_sentence_index := Some index;
     storybook_audio_playing := Some playing;
     storybook_audio_file := Some file;
     child_audio_evaluate_timer := child_audio_evaluate_timer s;
     child_audio_finish_timeout_seconds :=
       child_audio_finish_timeout_seconds s;
     end_page_questions := end_page_questions s;
     end_page_question_idx := end_page_question_idx s;
     state := state s;
     timers := timers s |}.

(** ** Calls on the collaborators *)

Definition ros_send (c : ros_call) : M unit :=
  modify (fun s => set_ros (ros s ++ [c]) s).

Definition student_do (c : student_call) : M unit :=
  modify (fun s =>
    set_student_calls (student_calls (student_model s) ++ [c]) s).

(** ** Actions *)

Definition tablet_show_library_panel : M unit :=
  ros_send (send_storybook_command SHOW_LIBRARY_PANEL None).

Definition jibo_stall_story_loading : M unit := ret tt.

Definition jibo_start_story : M unit :=
  ros_send (send_jibo_command HAPPY_ANIM []) ;;
  ros_send (send_jibo_command SPEAK [PStr "Yay, it's time to start!"]).

Definition tablet_next_page : M unit :=
  ros_send (send_storybook_command NEXT_PAGE None).

Definition jibo_next_page : M unit :=
  ros_send (send_jibo_command HAPPY_ANIM []) ;;
  ros_send (send_jibo_command SPEAK
              [PStr "Ok, moving on to the next page!"]).

(** The message printed before the second exit evaluates
    [len(self.current_sentences)], which can itself raise. *)
Definition tablet_show_next_sentence : M unit :=
  page <- get current_page_number ;;
  p <- as_int page ;;
  if p <=? 0 then raise (SystemExit 1) else
  idx <- get reported_evaluating_sentence_index ;;
  i <- as_int idx ;;
  let sentence_index := i + 1 in
  out_of_range <-
    (if sentence_index <? 0 then ret true else
       sents <- get current_sentences ;;
       n <- len sents ;;
       ret (n <=? sentence_index)) ;;
  if (out_of_range : bool) then
    sents <- get current_sentences ;;
    len sents ;;
    raise (SystemExit 1)
  else
  sm <- get student_model ;;
  let child_turn := is_child_turn sm sentence_index in
  mode <- get current_storybook_mode ;;
  let should_record := bool_decide (mode = Some EVALUATE_MODE) in
  ros_send (send_storybook_command SHOW_NEXT_SENTENCE
              (Some [("index", PInt sentence_index);
                     ("child_turn", PBool child_turn);
                     ("record", PBool should_record)])).

Definition tablet_begin_record : M unit :=
  ros_send (send_storybook_command START_RECORD None).

Definition tablet_stop_and_discard_record : M unit :=
  ros_send (send_storybook_command CANCEL_RECORD None).

(** [threading.Timer(...)] makes a Timer object; nothing calls its
    [start()]. *)
Definition new_timer (seconds : Z) : timer :=
  {| interval := seconds; started := false; finished := false |}.

Definition start_child_audio_timer : M unit :=
  modify (fun s =>
    set_timer (Some (length (timers s)))
              (timers s ++ [new_timer CHILD_AUDIO_SILENCE_TIMEOUT_SECONDS])
              s).

(** [Timer.cancel()]. *)
Definition cancel (t : timer) : timer :=
  {| interval := interval t; started := started t; finished := true |}.

Definition stop_child_audio_timer : M unit :=
  h <- get child_audio_evaluate_timer ;;
  match h with
  | None => raise AttributeError
  | Some r => modify (fun s => set_timer (Some r) (alter cancel r (timers s)) s)
  end.

Definition jibo_reprompt_child_audio : M unit :=
  ros_send (send_jibo_command HAPPY_ANIM []) ;;
  ros_send (send_jibo_command SPEAK
    [PStr "Come on, give it a try. It's tough, but you can do it! And don't forget to press the button to move on!"]).

Definition send_end_page_prompt : M unit :=
  sm <- get student_model ;;
  modify (set_end_page_questions (get_end_page_questions sm)) ;;
  modify (set_end_page_question_idx (Some 0)) ;;
  qs <- get end_page_questions ;;
  match qs !! 0%nat with
  | Some q => modify (fun s => set_ros (ros s ++ ask_question q) s)
  | None => raise IndexError
  end.

Definition tablet_go_to_end_page : M unit :=
  ros_send (send_storybook_command GO_TO_END_PAGE None).

Definition jibo_end_story : M unit :=
  ros_send (send_jibo_command HAPPY_ANIM []) ;;
  ros_send (send_jibo_command SPEAK
    [PStr "Wow, what a great story, don't you think? What was your favorite part?"]) ;;
  ros_send (send_jibo_command QUESTION_ANIM []).

Definition jibo_respond_to_end_story : M unit :=
  ros_send (send_jibo_command HAPPY_ANIM []) ;;
  ros_send (send_jibo_command SPEAK
    [PStr "Cool, yeah, that's an interesting point. That was fun really really fun!! I hope we can read again some time."]) ;;
  ros_send (send_jibo_command HAPPY_DANCE []).

(** ** Conditions *)

Definition more_sentences_available : M bool :=
  idx <- get reported_evaluating_sentence_index ;;
  i <- as_int idx ;;
  sents <- get current_sentences ;;
  n <- len sents ;;
  ret (i + 1 <? n).

Definition more_pages_available : M bool :=
  page <- get current_page_number ;;
  p <- as_int page ;;
  pages <- get num_story_pages ;;
  n <- as_int pages ;;
  ret (p + 1 <? n).

Definition in_not_reading_mode : M bool :=
  mode <- get current_storybook_mode ;;
  ret (bool_decide (mode = Some NOT_READING)).

Definition in_explore_mode : M bool :=
  mode <- get current_storybook_mode ;;
  ret (bool_decide (mode = Some EXPLORE_MODE)).

Definition in_evaluate_mode : M bool :=
  mode <- get current_storybook_mode ;;
  ret (bool_decide (mode = Some EVALUATE_MODE)).

(** ** The transition table *)

(** Names of triggers, as the strings of the table. *)
Module Trigger.
Inductive t : Type :=
| storybook_selected
| storybook_loaded
| page_info_received
| child_audio_timeout
| child_sentence_audio_complete
| jibo_finish_tts
| child_end_page_response_complete
| jibo_finish_child_asr
| begin_evaluate_mode.

#[global] Instance eq_dec : EqDecision t.
Proof. solve_decision. Defined.
End Trigger.

(** Names of the callbacks given under ["before"] and ["after"]. *)
Module Action.
Inductive t : Type :=
| tablet_show_library_panel
| jibo_stall_story_loading
| jibo_start_story
| tablet_next_page
| jibo_next_page
| tablet_show_next_sentence
| tablet_begin_record
| tablet_stop_and_discard_record
| start_child_audio_timer
| stop_child_audio_timer
| jibo_reprompt_child_audio
| send_end_page_prompt
| tablet_go_to_end_page
| jibo_end_story
| jibo_respond_to_end_story.
End Action.

(** Names of the callbacks given under ["conditions"]. *)
Module Cond.
Inductive t : Type :=
| more_sentences_available
| more_pages_available.
End Cond.

(** ["source"]: a state, or ["*"]. *)
Inductive source_t : Type :=
| AnyState
| From (st : fsm_state).

(** ["dest"]: a state, or ["="]. *)
Inductive dest_t : Type :=
| Same
| To (st : fsm_state).

(** One dictionary of the table; a key that is left out is the empty
    list, a single name is the list of that name. *)
Record transition : Type := mkTransition {
  trigger : Trigger.t;
  source : source_t;
  dest : dest_t;
  conditions : list Cond.t;
  before : list Action.t;
  after : list Action.t
}.

Definition not_reading_transitions : list transition := [].

Definition explore_transitions : list transition := [].

Definition evaluate_transitions : list transition :=
  [ {| trigger := Trigger.storybook_selected;
       source := From BEGIN_EVALUATE;
       dest := To WAITING_FOR_STORY_LOAD;
       conditions := [];
       before := [];
       after := [Action.jibo_stall_story_loading] |};
    {| trigger := Trigger.storybook_loaded;
       source := From WAITING_FOR_STORY_LOAD;
       dest := To WAITING_FOR_STORY_LOAD;
       conditions := [];
       before := [Action.jibo_start_story];
       after := [] |};
    {| trigger := Trigger.jibo_finish_tts;
       source := From WAITING_FOR_STORY_LOAD;
       dest := To WAITING_FOR_NEXT_PAGE;
       conditions := [];
       before := [];
       after := [Action.tablet_next_page] |};
    {| trigger := Trigger.page_info_received;
       source := From WAITING_FOR_NEXT_PAGE;
       dest := To WAITING_FOR_CHILD_AUDIO;
       conditions := [];
       before := [];
       after := [Action.tablet_show_next_sentence;
                 Action.start_child_audio_timer] |};
    {| trigger := Trigger.child_audio_timeout;
       source := From WAITING_FOR_CHILD_AUDIO;
       dest := To WAITING_FOR_CHILD_AUDIO;
       conditions := [];
       before := [Action.jibo_reprompt_child_audio;
                  Action.tablet_stop_and_discard_record];
       after := [] |};
    {| trigger := Trigger.jibo_finish_tts;
       source := From WAITING_FOR_CHILD_AUDIO;
       dest := To WAITING_FOR_CHILD_AUDIO;
       conditions := [];
       before := [];
       after := [Action.start_child_audio_timer;
                 Action.tablet_begin_record] |};
    {| trigger := Trigger.child_sentence_audio_complete;
       source := From WAITING_FOR_CHILD_AUDIO;
       dest := To WAITING_FOR_CHILD_AUDIO;
       conditions := [Cond.more_sentences_available];
       before := [];
       after := [Action.tablet_show_next_sentence;
                 Action.start_child_audio_timer] |};
    {| trigger := Trigger.child_sentence_audio_complete;
       source := From WAITING_FOR_CHILD_AUDIO;
       dest := To WAITING_FOR_END_PAGE_JIBO_QUESTION;
       conditions := [];
       before := [Action.stop_child_audio_timer];
       after := [Action.send_end_page_prompt] |};
    {| trigger := Trigger.jibo_finish_tts;
       source := From WAITING_FOR_END_PAGE_JIBO_QUESTION;
       dest := To WAITING_FOR_END_PAGE_CHILD_RESPONSE;
       conditions := [];
       before := [];
       after := [] |};
    {| trigger := Trigger.child_end_page_response_complete;
       source := From WAITING_FOR_END_PAGE_CHILD_RESPONSE;
       dest := To WAITING_FOR_NEXT_PAGE_JIBO_INTERLUDE;
       conditions := [Cond.more_pages_available];
       before := [];
       after := [Action.jibo_next_page] |};
    {| trigger := Trigger.jibo_finish_tts;
       source := From WAITING_FOR_NEXT_PAGE_JIBO_INTERLUDE;
       dest := To WAITING_FOR_NEXT_PAGE;
       conditions := [];
       before := [];
       after := [Action.tablet_next_page] |};
    {| trigger := Trigger.child_end_page_response_complete;
       source := From WAITING_FOR_END_PAGE_CHILD_RESPONSE;
       dest := To END_STORY;
       conditions := [];
       before := [];
       after := [Action.tablet_go_to_end_page; Action.jibo_end_story] |};
    {| trigger := Trigger.jibo_finish_tts;
       source := From END_STORY;
       dest := To WAITING_FOR_END_STORY_CHILD_AUDIO;
       conditions := [];
       before := [];
       after := [] |};
    {| trigger := Trigger.jibo_finish_child_asr;
       source := From WAITING_FOR_END_STORY_CHILD_AUDIO;
       dest := To END_EVALUATE;
       conditions := [];
       before := [];
       after := [Action.jibo_respond_to_end_story] |};
    {| trigger := Trigger.jibo_finish_tts;
       source := From END_EVALUATE;
       dest := To END_EVALUATE;
       conditions := [];
       before := [];
       after := [Action.tablet_show_library_panel] |};
    {| trigger := Trigger.begin_evaluate_mode;
       source := AnyState;
       dest := To BEGIN_EVALUATE;
       conditions := [];
       before := [];
       after := [] |};
    {| trigger := Trigger.jibo_finish_tts;
       source := AnyState;
       dest := Same;
       conditions := [];
       before := [];
       after := [] |};
    {| trigger := Trigger.jibo_finish_child_asr;
       source := AnyState;
       dest := Same;
       conditions := [];
       before := [];
       after := [] |};
    {| trigger := Trigger.page_info_received;
       source := AnyState;
       dest := Same;
       conditions := [];
       before := [];
       after := [] |} ].

Definition transitions : list transition :=
  not_reading_transitions ++ explore_transitions ++ evaluate_transitions.

(** The machine finds a callback by its name on the model. *)
Definition callback (a : Action.t) : M unit :=
  match a with
  | Action.tablet_show_library_panel => tablet_show_library_panel
  | Action.jibo_stall_story_loading => jibo_stall_story_loading
  | Action.jibo_start_story => jibo_start_story
  | Action.tablet_next_page => tablet_next_page
  | Action.jibo_next_page => jibo_next_page
  | Action.tablet_show_next_sentence => tablet_show_next_sentence
  | Action.tablet_begin_record => tablet_begin_record
  | Action.tablet_stop_and_discard_record => tablet_stop_and_discard_record
  | Action.start_child_audio_timer => start_child_audio_timer
  | Action.stop_child_audio_timer => stop_child_audio_timer
  | Action.jibo_reprompt_child_audio => jibo_reprompt_child_audio
  | Action.send_end_page_prompt => send_end_page_prompt
  | Action.tablet_go_to_end_page => tablet_go_to_end_page
  | Action.jibo_end_story => jibo_end_story
  | Action.jibo_respond_to_end_story => jibo_respond_to_end_story
  end.

Definition condition (c : Cond.t) : M bool :=
  match c with
  | Cond.more_sentences_available => more_sentences_available
  | Cond.more_pages_available => more_pages_available
  end.

(** ** The machine

    [self.state_machine] is a [transitions.Machine] over the table, made
    with [queued=True] and without [ignore_invalid_triggers].  What such
    a machine does with an event is embedded here as that package
    documents it:
    - the transitions of an event are kept per source state, in the
      order of the table; ["*"] stands for every state and ["="] for the
      source itself;
    - an event with no transition from the current state raises
      [MachineError];
    - otherwise the transitions from the current state are tried in
      order: the conditions of one are checked and, when all hold, its
      [before] callbacks run, the state is set, its [after] callbacks
      run, and the event is done with result [True]; when a condition
      fails the next transition is tried; when none is left the result
      is [False];
    - no action of this controller fires a trigger, so the queue of
      [queued=True] never holds more than the event at hand. *)

Definition source_matches (r : transition) (st : fsm_state) : bool :=
  match source r with
  | AnyState => true
  | From st' => bool_decide (st' = st)
  end.

Definition event_transitions (table : list transition) (t : Trigger.t)
    (st : fsm_state) : list transition :=
  List.filter
    (fun r => bool_decide (trigger r = t) && source_matches r st) table.

Fixpoint check (cs : list Cond.t) : M bool :=
  match cs with
  | [] => ret true
  | c :: cs' =>
      ok <- condition c ;;
      if (ok : bool) then check cs' else ret false
  end.

Fixpoint run (acts : list Action.t) : M unit :=
  match acts with
  | [] => ret tt
  | a :: acts' => callback a ;; run acts'
  end.

Definition dest_state (r : transition) (st : fsm_state) : fsm_state :=
  match dest r with
  | Same => st
  | To st' => st'
  end.

(** [Transition.execute], for a transition out of [st]. *)
Definition execute (st : fsm_state) (r : transition) : M bool :=
  ok <- check (conditions r) ;;
  if (ok : bool) then
    run (before r) ;;
    modify (set_state (dest_state r st)) ;;
    run (after r) ;;
    ret true
  else ret false.

Fixpoint process (st : fsm_state) (rs : list transition) : M bool :=
  match rs with
  | [] => ret false
  | r :: rs' =>
      fired <- execute st r ;;
      if (fired : bool) then ret true else process st rs'
  end.

(** The event [t] of the machine, triggered on the controller. *)
Definition fire (t : Trigger.t) : M bool :=
  st <- get state ;;
  match event_transitions transitions t st with
  | [] => raise MachineError
  | rs => process st rs
  end.

(** ** Triggers

    The machine is given the controller as its model: for each trigger
    of the table it binds the event on the object, under the name of the
    trigger.  The class has a method of the same name for each trigger,
    and the binding on the object hides it: a call [self.t()], which the
    class's comments mark [# Trigger!], is the event [t] of the machine,
    and the body of the method [t] of the class is not run. *)

Definition storybook_selected : M bool := fire Trigger.storybook_selected.

Definition storybook_loaded : M bool := fire Trigger.storybook_loaded.

Definition page_info_received : M bool := fire Trigger.page_info_received.

Definition child_audio_timeout : M bool := fire Trigger.child_audio_timeout.

Definition child_sentence_audio_complete : M bool :=
  fire Trigger.child_sentence_audio_complete.

Definition jibo_finish_tts : M bool := fire Trigger.jibo_finish_tts.

Definition child_end_page_response_complete : M bool :=
  fire Trigger.child_end_page_response_complete.

(** The body of the method [child_end_page_response_complete] of the
    class, which the binding of the event hides: its reset of the
    end-page questions. *)
Definition child_end_page_response_complete_method : M unit :=
  modify (set_end_page_questions []) ;;
  modify (set_end_page_question_idx None).

Definition jibo_finish_child_asr : M bool :=
  fire Trigger.jibo_finish_child_asr.

Definition begin_evaluate_mode : M bool := fire Trigger.begin_evaluate_mode.

(** The callback given to [threading.Timer]. *)
Definition timer_expire : M unit :=
  child_audio_timeout ;;
  ret tt.

(** ** Helpers *)

Definition current_end_page_question : M end_page_question :=
  idx <- get end_page_question_idx ;;
  qs <- get end_page_questions ;;
  match idx with
  | None => raise (Exception_ "No end page question exists right now!")
  | Some i =>
      if (i <? 0) || (Z.of_nat (length qs) <=? i)
      then raise (Exception_ "No end page question exists right now!")
      else match qs !! Z.to_nat i with
           | Some q => ret q
           | None => raise IndexError
           end
  end.

Definition try_answer_question (qt : EndPageQuestionType) (query : jval)
  : M unit :=
  q <- current_end_page_question ;;
  if negb (bool_decide (qt = question_type q)) then ret tt else
  q' <- current_end_page_question ;;
  student_do (question_try_answer (question_type q') query
                                  (try_answer q' query)) ;;
  child_end_page_response_complete ;;
  ret tt.

(** ** The event queue and the handler that feeds it *)

(** [x in self.STORYBOOK_EVENT_MESSAGES]. *)
Definition allowed (k : StorybookEvent) : bool :=
  existsb (fun k' => bool_decide (k = k')) STORYBOOK_EVENT_MESSAGES.

(** [self.event_queue.put(data)]. *)
Definition put (data : storybook_event) : M unit :=
  modify (fun s => set_event_queue (event_queue s ++ [data]) s).

Definition storybook_event_ros_message_handler (data : storybook_event)
  : M unit :=
  if allowed (event_type data) then put data
  else raise (SystemExit 1).

(** ** The consumer of the event queue *)

Fixpoint assoc (key : string) (fields : list (string * jval))
  : option jval :=
  match fields with
  | [] => None
  | (k, v) :: fields' =>
      if String.eqb k key then Some v else assoc key fields'
  end.

(** [message[key]], for a key that is a string. *)
Definition item (key : string) (msg : json) : M jval :=
  match msg with
  | JObject fields =>
      match assoc key fields with
      | Some v => ret v
      | None => raise KeyError
      end
  | JValue _ => raise TypeError
  end.

Section Consumer.

(** The decoder [json.loads]: the value of a JSON text, [None] for a
    text that is not JSON. *)
Variable json_loads : string -> option json.

(** The method [str.lower] of Python's strings. *)
Variable str_lower : string -> string.

Definition loads (text : string) : M json :=
  match json_loads text with
  | Some v => ret v
  | None => raise ValueError
  end.

Definition process_storybook_event (data : storybook_event) : M unit :=
  match event_type data with
  | HELLO_WORLD =>
      ros_send (send_storybook_command PING_TEST
                  (Some [("obj1", PInt 1); ("obj2", PInt 2)])) ;;
      ros_send (send_jibo_asr_command START) ;;
      ros_send (send_storybook_command SET_STORYBOOK_MODE
                  (Some [("mode", PMode EVALUATE_MODE)])) ;;
      begin_evaluate_mode ;;
      ret tt
  | SPEECH_ACE_RESULT =>
      msg <- loads (message data) ;;
      item "index" msg ;;
      text <- item "text" msg ;;
      duration <- item "duration" msg ;;
      speechace <- item "speechace" msg ;;
      speechace_result <-
        match speechace with
        | JStr raw => loads raw
        | _ => raise TypeError
        end ;;
      student_do (update_with_duration duration text) ;;
      student_do (update_with_speechace_result speechace_result)
  | WORD_TAPPED =>
      msg <- loads (message data) ;;
      w <- item "word" msg ;;
      match w with
      | JStr w' =>
          let word := str_lower w' in
          evaluate <- in_evaluate_mode ;;
          if (evaluate : bool) then
            st <- get state ;;
            if bool_decide (st = WAITING_FOR_END_PAGE_CHILD_RESPONSE)
            then try_answer_question WORD_TAP (JStr word)
            else ret tt
          else
            explore <- in_explore_mode ;;
            if (explore : bool) then
              student_do (update_with_explore_word_tapped word) ;;
              ros_send (send_jibo_command SPEAK
                          [PStr word; PDec ".5"; PDec ".45"])
            else ret tt
      | _ => raise AttributeError
      end
  | SCENE_OBJECT_TAPPED =>
      msg <- loads (message data) ;;
      item "id" msg ;;
      label <- item "label" msg ;;
      evaluate <- in_evaluate_mode ;;
      if (evaluate : bool) then
        st <- get state ;;
        if bool_decide (st = WAITING_FOR_END_PAGE_CHILD_RESPONSE)
        then try_answer_question SCENE_OBJECT_TAP label
        else ret tt
      else
        explore <- in_explore_mode ;;
        if (explore : bool) then
          student_do (update_with_explore_scene_object_tapped label) ;;
          raise NameError  (* [word] is not bound in this branch *)
        else ret tt
  | SENTENCE_SWIPED =>
      msg <- loads (message data) ;;
      item "index" msg ;;
      item "text" msg ;;
      ret tt
  | RECORD_AUDIO_COMPLETE =>
      msg <- loads (message data) ;;
      item "index" msg ;;
      child_sentence_audio_complete ;;
      ret tt
  | STORY_SELECTED =>
      msg <- loads (message data) ;;
      needs_download <- item "needs_download" msg ;;
      modify (set_current_story_needs_download (Some needs_download)) ;;
      storybook_selected ;;
      ret tt
  | STORY_LOADED =>
      storybook_loaded ;;
      ret tt
  | EVALUATE_MODE_SELECTED =>
      begin_evaluate_mode ;;
      ret tt
  | OTHER_EVENT _ => ret tt
  end.

(** One turn of the loop of [process_main_event_queue]: take the oldest
    message and handle it, or find the queue empty and sleep. *)
Definition consumer_turn : M unit :=
  q <- get event_queue ;;
  match q with
  | [] => ret tt
  | data :: q' =>
      modify (set_event_queue q') ;;
      process_storybook_event data
  end.

End Consumer.

(** ** The other ROS handlers *)

Record StorybookPageInfo : Type := mkPageInfo {
  page_number : Z;
  sentences : list string;
  scene_objects : list string;
  tinkertexts : list string
}.

Record StorybookState : Type := mkStorybookState {
  storybook_mode_of : storybook_mode;
  current_story_of : string;
  num_pages : Z;
  evaluating_sentence_index : Z;
  audio_playing : bool;
  audio_file : string
}.

Definition storybook_page_info_ros_message_handler
    (data : StorybookPageInfo) : M unit :=
  modify (set_page (page_number data) (sentences data)
                   (scene_objects data) (tinkertexts data)) ;;
  student_do (update_sentences (page_number data) (sentences data)) ;;
  page_info_received ;;
  ret tt.

Definition storybook_state_ros_message_handler (data : StorybookState)
  : M unit :=
  modify (set_story (storybook_mode_of data) (current_story_of data)
                    (num_pages data) (evaluating_sentence_index data)
                    (audio_playing data) (audio_file data)).

(** [data.is_playing_sound] of a [JiboState] message. *)
Definition jibo_state_ros_message_handler (is_playing_sound : bool)
  : M unit :=
  tts_on <- get jibo_tts_on ;;
  (if negb is_playing_sound && (tts_on : bool)
   then jibo_finish_tts ;; ret tt
   else ret tt) ;;
  modify (set_jibo_tts_on is_playing_sound).

(** [data.transcription] of a [JiboAsrResult] message.  [ASR_NOSPEECH]
    is a constant of [storybook_constants], taken as a parameter. *)
Definition jibo_asr_ros_message_handler (ASR_NOSPEECH : string)
    (transcription : string) : M unit :=
  if String.eqb transcription EmptyString
     || String.eqb transcription ASR_NOSPEECH
  then
    asr_empty <- get jibo_asr_empty ;;
    (if negb asr_empty then jibo_finish_child_asr ;; ret tt else ret tt) ;;
    modify (set_jibo_asr_empty true)
  else
    modify (set_jibo_asr_empty false) ;;
    st <- get state ;;
    if bool_decide (st = WAITING_FOR_END_PAGE_CHILD_RESPONSE)
    then try_answer_question WORD_PRONOUNCE (JStr transcription)
    else ret tt.

(** ** Vocabulary of the properties *)

(** No action assigns [self.state]: only the machine does. *)
Definition keeps_state {A} (m : M A) : Prop :=
  forall s, state (final (m s)) = state s.

(** A transition applies to a trigger in a state of the controller when
    the trigger is its own, its source is the current state or ["*"],
    and its conditions all hold. *)
Definition applies (r : transition) (t : Trigger.t) (s : fsm) : Prop :=
  trigger r = t /\
  source_matches r (state s) = true /\
  check (conditions r) s = Done true s.

Definition unmatched (t : Trigger.t) (s : fsm) : Prop :=
  forall r, In r transitions -> ~ applies r t s.

(** A transition without conditions. *)
Definition unconditional (r : transition) : bool :=
  match conditions r with [] => true | _ => false end.

(** What [tablet_show_next_sentence] sends for the sentence [k]. *)
Definition show_next_sentence_command (s : fsm) (k : Z) : ros_call :=
  send_storybook_command SHOW_NEXT_SENTENCE
    (Some [("index", PInt k);
           ("child_turn", PBool (is_child_turn (student_model s) k));
           ("record",
            PBool (bool_decide
                     (current_storybook_mode s = Some EVALUATE_MODE)))]).

(** The event child_sentence_audio_complete as the spec has it: in
    WAITING_FOR_CHILD_AUDIO, whatever else the controller holds, the
    actions of the rule that is taken run to their end around the change
    of state, and the event ends in the destination of the rule. *)
Definition audio_complete_runs_its_actions (s : fsm) : Prop :=
  state s = WAITING_FOR_CHILD_AUDIO ->
  (more_sentences_available s = Done true s ->
   exists s1 s',
     tablet_show_next_sentence (set_state WAITING_FOR_CHILD_AUDIO s)
       = Done tt s1 /\
     start_child_audio_timer s1 = Done tt s' /\
     child_sentence_audio_complete s = Done true s' /\
     state s' = WAITING_FOR_CHILD_AUDIO) /\
  (more_sentences_available s = Done false s ->
   exists s1 s',
     stop_child_audio_timer s = Done tt s1 /\
     send_end_page_prompt
       (set_state WAITING_FOR_END_PAGE_JIBO_QUESTION s1) = Done tt s' /\
     child_sentence_audio_complete s = Done true s' /\
     state s' = WAITING_FOR_END_PAGE_JIBO_QUESTION).

(** What the timeout transition sends: the reprompt of the robot, then
    the cancellation of the recording on the tablet. *)
Definition timeout_commands : list ros_call :=
  [ send_jibo_command HAPPY_ANIM [];
    send_jibo_command SPEAK
      [PStr "Come on, give it a try. It's tough, but you can do it! And don't forget to press the button to move on!"];
    send_storybook_command CANCEL_RECORD None ].

(** [s'] is [s] after a new Timer was made and assigned, which is what
    [start_child_audio_timer] does. *)
Definition timer_restarted (s s' : fsm) : Prop :=
  child_audio_evaluate_timer s' = Some (length (timers s)) /\
  timers s' = timers s ++ [new_timer CHILD_AUDIO_SILENCE_TIMEOUT_SECONDS].

(** The timeout transition as the spec has it: reprompt, discard,
    restart. *)
Definition timeout_restarts_timer (s : fsm) : Prop :=
  exists s',
    child_audio_timeout s = Done true s' /\
    state s' = WAITING_FOR_CHILD_AUDIO /\
    ros s' = ros s ++ timeout_commands /\
    timer_restarted s s'.

(** A timer is pending when its countdown runs: started, and neither
    cancelled nor expired. *)
Definition pending (t : timer) : bool := started t && negb (finished t).

(** The number of pending timers of a controller. *)
Definition outstanding (s : fsm) : nat :=
  length (List.filter pending (timers s)).

(** The expiry as the spec has it: the callback only puts an event on
    the queue. *)
Definition expiry_only_enqueues (s : fsm) : Prop :=
  exists ev : storybook_event,
    timer_expire s = Done tt (set_event_queue (event_queue s ++ [ev]) s).

(** The conditions as the spec has them: they always return. *)
Definition conditions_return (s : fsm) : Prop :=
  (exists b, more_sentences_available s = Done b s) /\
  (exists b, more_pages_available s = Done b s).

(** ** Sample collaborators and sessions, for the examples below *)

Definition tap_cat : end_page_question :=
  {| question_type := WORD_TAP;
     ask_question :=
       [send_jibo_command SPEAK [PStr "Can you tap the word cat?"]];
     try_answer := fun query =>
       match query with
       | JStr w => String.eqb w "cat"
       | _ => false
       end |}.

Definition student0 : student_model_t :=
  {| is_child_turn := fun _ => true;
     get_end_page_questions := [tap_cat];
     student_calls := [] |}.

(** A session in evaluate mode on page [page] of a three-page story, the
    page having two sentences, the tablet having reported sentence
    [index], and the controller being in state [st]. *)
Definition session (st : fsm_state) (page index : Z) : fsm :=
  set_state st
    (set_page page ["The cat sat."; "The end."] [] []
       (set_story EVALUATE_MODE "cat_story" 3 index false EmptyString
          (init student0))).

(** The same session after [start_child_audio_timer] has run once. *)
Definition session_with_timer (st : fsm_state) (page index : Z) : fsm :=
  final (start_child_audio_timer (session st page index)).

(** A session waiting for the child's answer to [tap_cat]. *)
Definition session_with_question (page index : Z) : fsm :=
  set_end_page_question_idx (Some 0)
    (set_end_page_questions [tap_cat]
       (session WAITING_FOR_END_PAGE_CHILD_RESPONSE page index)).

(** A decoder that knows the three JSON texts of the session below. *)
Definition dq : string := String (Ascii.ascii_of_nat 34) EmptyString.

Definition field_text (key value : string) : string :=
  String.append "{"
    (String.append dq
       (String.append key
          (String.append dq (String.append ": " (String.append value "}"))))).

Definition no_download_text : string := field_text "needs_download" "false".

Definition index_text : string := field_text "index" "0".

Definition word_text : string :=
  field_text "word" (String.append dq (String.append "Cat" dq)).

Definition decode0 (text : string) : option json :=
  if String.eqb text no_download_text
  then Some (JObject [("needs_download", JBool false)])
  else if String.eqb text index_text
  then Some (JObject [("index", JInt 0)])
  else if String.eqb text word_text
  then Some (JObject [("word", JStr "Cat")])
  else None.

(** A lowering that knows the word of the session below. *)
Definition lower0 (w : string) : string :=
  if String.eqb w "Cat" then "cat" else w.

(** A message arrives and the consumer takes it. *)
Definition deliver (kind : StorybookEvent) (text : string) : M unit :=
  storybook_event_ros_message_handler (mkEvent kind text) ;;
  consumer_turn decode0 lower0.

(** The robot speaks and falls silent. *)
Definition jibo_speaks : M unit :=
  jibo_state_ros_message_handler true ;;
  jibo_state_ros_message_handler false.

(** The tablet reports the index of the sentence under evaluation. *)
Definition tablet_reports (index : Z) : M unit :=
  storybook_state_ros_message_handler
    {| storybook_mode_of := EVALUATE_MODE;
       current_story_of := "cat_story";
       num_pages := 3;
       evaluating_sentence_index := index;
       audio_playing := false;
       audio_file := EmptyString |}.

(** A reading of the first page of a story, up to the answer to the
    end-page question. *)
Definition first_page : M unit :=
  deliver HELLO_WORLD EmptyString ;;
  deliver STORY_SELECTED no_download_text ;;
  deliver STORY_LOADED EmptyString ;;
  jibo_speaks ;;
  tablet_reports (-1) ;;
  storybook_page_info_ros_message_handler
    {| page_number := 1;
       sentences := ["The cat sat."; "The end."];
       scene_objects := [];
       tinkertexts := [] |} ;;
  tablet_reports 0 ;;
  deliver RECORD_AUDIO_COMPLETE index_text ;;
  tablet_reports 1 ;;
  deliver RECORD_AUDIO_COMPLETE index_text ;;
  jibo_speaks ;;
  deliver WORD_TAPPED word_text.

(** ** Vocabulary of the further properties *)

(** The loop of [process_main_event_queue], cut after [turns] turns; an
    exception leaves the loop, as it does the thread that runs it. *)
Fixpoint process_main_event_queue (json_loads : string -> option json)
    (str_lower : string -> string)
    (turns : nat) : M unit :=
  match turns with
  | O => ret tt
  | S turns' =>
      consumer_turn json_loads str_lower ;;
      process_main_event_queue json_loads str_lower turns'
  end.

(** A property of the controller that a method keeps, however the
    method ends. *)
Definition preserves {A} (P : fsm -> Prop) (m : M A) : Prop :=
  forall s, P s -> P (final (m s)).

(** A property that is kept by each assignment the class makes outside
    the event queue: the machine's assignment of a destination of the
    table to [state], the appends to the two logs, the making and the
    cancelling of the current Timer, and the plain attribute writes. *)
Record stable (P : fsm -> Prop) : Prop := mkStable {
  stable_state : forall d s,
    P s -> In (To d) (List.map dest transitions) -> P (set_state d s);
  stable_ros : forall l s, P s -> P (set_ros (ros s ++ l) s);
  stable_student : forall c s,
    P s ->
    P (set_student_calls (student_calls (student_model s) ++ [c]) s);
  stable_start : forall s,
    P s ->
    P (set_timer (Some (length (timers s)))
         (timers s ++ [new_timer CHILD_AUDIO_SILENCE_TIMEOUT_SECONDS]) s);
  stable_stop : forall r s,
    P s -> child_audio_evaluate_timer s = Some r ->
    P (set_timer (Some r) (alter cancel r (timers s)) s);
  stable_questions : forall v s, P s -> P (set_end_page_questions v s);
  stable_idx_none : forall s, P s -> P (set_end_page_question_idx None s);
  stable_idx_zero : forall s,
    P s -> P (set_end_page_question_idx (Some 0) s);
  stable_tts : forall v s, P s -> P (set_jibo_tts_on v s);
  stable_asr : forall v s, P s -> P (set_jibo_asr_empty v s);
  stable_needs : forall v s,
    P s -> P (set_current_story_needs_download (Some v) s);
  stable_page : forall n l1 l2 l3 s, P s -> P (set_page n l1 l2 l3 s);
  stable_story : forall m st n i b f s,
    P s -> P (set_story m st n i b f s)
}.

(** The entry points of the controller that do not touch the event
    queue: the handlers of the other three topics, the handling of a
    dequeued message, and the callback of the timer. *)
Inductive entry (json_loads : string -> option json)
    (str_lower : string -> string)
    (ASR_NOSPEECH : string) : M unit -> Prop :=
| entry_event (data : storybook_event) :
    entry json_loads str_lower ASR_NOSPEECH (process_storybook_event json_loads str_lower data)
| entry_page_info (data : StorybookPageInfo) :
    entry json_loads str_lower ASR_NOSPEECH
      (storybook_page_info_ros_message_handler data)
| entry_state (data : StorybookState) :
    entry json_loads str_lower ASR_NOSPEECH (storybook_state_ros_message_handler data)
| entry_jibo_state (is_playing_sound : bool) :
    entry json_loads str_lower ASR_NOSPEECH
      (jibo_state_ros_message_handler is_playing_sound)
| entry_jibo_asr (transcription : string) :
    entry json_loads str_lower ASR_NOSPEECH
      (jibo_asr_ros_message_handler ASR_NOSPEECH transcription)
| entry_timer :
    entry json_loads str_lower ASR_NOSPEECH timer_expire.

(** A student model that has no end-page question. *)
Definition student_without_questions : student_model_t :=
  {| is_child_turn := fun _ => true;
     get_end_page_questions := [];
     student_calls := [] |}.

(** A session on the last sentence of page one, a Timer made, with the
    student model that has no question. *)
Definition last_sentence_without_questions : fsm :=
  final (start_child_audio_timer
           (set_state WAITING_FOR_CHILD_AUDIO
              (set_page 1 ["The cat sat."; "The end."] [] []
                 (set_story EVALUATE_MODE "cat_story" 3 1 false EmptyString
                    (init student_without_questions))))).

(** No Timer of the controller was started. *)
Definition no_timer_started (s : fsm) : Prop :=
  Forall (fun t => started t = false) (timers s).

(** The reference to the current Timer, when there is one, is to a
    Timer that was made. *)
Definition timer_reference_valid (s : fsm) : Prop :=
  forall r, child_audio_evaluate_timer s = Some r ->
            (r < length (timers s))%nat.

(** The controller is past its initial state, in a state of evaluate
    mode. *)
Definition evaluating (s : fsm) : Prop :=
  state s <> APP_START /\ state s <> BEGIN_EXPLORE.

(** Every queued message has a kind of [STORYBOOK_EVENT_MESSAGES]. *)
Definition queue_allowed (s : fsm) : Prop :=
  Forall (fun data => allowed (event_type data) = true) (event_queue s).

(** The index of the current end-page question is unset or 0. *)
Definition first_question_only (s : fsm) : Prop :=
  end_page_question_idx s = None \/ end_page_question_idx s = Some 0.

(** A state in which the event has no transition of its own, so that
    only the catch-all rule of the event takes it. *)
Definition absorbs (t : Trigger.t) (st : fsm_state) : bool :=
  match t, st with
  | Trigger.jibo_finish_tts,
    (APP_START | BEGIN_EXPLORE | BEGIN_EVALUATE | WAITING_FOR_NEXT_PAGE
     | WAITING_FOR_END_PAGE_CHILD_RESPONSE
     | WAITING_FOR_END_STORY_CHILD_AUDIO) => true
  | Trigger.jibo_finish_child_asr, WAITING_FOR_END_STORY_CHILD_AUDIO => false
  | Trigger.jibo_finish_child_asr, _ => true
  | Trigger.page_info_received, WAITING_FOR_NEXT_PAGE => false
  | Trigger.page_info_received, _ => true
  | _, _ => false
  end.

(** ** Tactics *)

(** Unfolds the machine at an event whose source state is known: the
    transitions of the event from that state are computed from the
    table. *)
Ltac fire_from Hst :=
  unfold fire; unfold bind at 1; unfold get at 1; rewrite Hst;
  match goal with
  | |- context [event_transitions ?tb ?t ?st] =>
      let rs := eval vm_compute in (event_transitions tb t st) in
      change (event_transitions tb t st) with rs
  end;
  cbn [process execute check run conditions before after dest dest_state
       condition callback].

(** Opens the monad, leaving the calls of methods as they are. *)
Ltac open_monad :=
  unfold execute, bind, ret, modify, get, raise;
  cbn [check run conditions before after dest dest_state condition
       callback];
  unfold bind, ret, modify, get, raise.

(** Cases on how each method call that is left ends. *)
Ltac by_cases :=
  repeat match goal with
         | |- context [match ?m ?s with Done _ _ => _ | Abort _ _ => _ end] =>
             destruct (m s)
         end;
  reflexivity.

(** Reduces attribute reads of assigned objects. *)
Ltac flatten :=
  cbn [set_state set_event_queue set_ros set_student_calls set_timer
       set_end_page_questions set_end_page_question_idx set_jibo_tts_on
       set_jibo_asr_empty set_current_story_needs_download set_page
       set_story
       event_queue ros student_model jibo_tts_on jibo_asr_empty
       current_storybook_mode current_story current_story_needs_download
       num_story_pages current_page_number current_tinkertexts
       current_scene_objects current_sentences
       reported_evaluating_sentence_index storybook_audio_playing
       storybook_audio_file child_audio_evaluate_timer
       child_audio_finish_timeout_seconds end_page_questions
       end_page_question_idx state timers
       is_child_turn get_end_page_questions student_calls].

(** * Properties *)

(** ** General facts about the embedding *)

(** Conditions only read the object. *)
Lemma more_sentences_available_reads (s : fsm) :
  more_sentences_available s =
  match reported_evaluating_sentence_index s, current_sentences s with
  | Some i, Some l => Done (i + 1 <? Z.of_nat (length l)) s
  | _, _ => Abort TypeError s
  end.
Proof.
  unfold more_sentences_available, bind, get, as_int, len, ret, raise.
  destruct (reported_evaluating_sentence_index s);
    destruct (current_sentences s); reflexivity.
Qed.

Lemma more_pages_available_reads (s : fsm) :
  more_pages_available s =
  match current_page_number s, num_story_pages s with
  | Some p, Some n => Done (p + 1 <? n) s
  | _, _ => Abort TypeError s
  end.
Proof.
  unfold more_pages_available, bind, get, as_int, ret, raise.
  destruct (current_page_number s); destruct (num_story_pages s);
    reflexivity.
Qed.

Lemma keeps_state_ret {A} (a : A) : keeps_state (ret a).
Proof. intros s; reflexivity. Qed.

Lemma keeps_state_raise {A} (e : failure) : keeps_state (@raise A e).
Proof. intros s; reflexivity. Qed.

Lemma keeps_state_get {A} (f : fsm -> A) : keeps_state (get f).
Proof. intros s; reflexivity. Qed.

Lemma keeps_state_bind {A B} (m : M A) (k : A -> M B) :
  keeps_state m -> (forall a, keeps_state (k a)) -> keeps_state (bind m k).
Proof.
  intros Hm Hk s. unfold bind. specialize (Hm s).
  destruct (m s) as [a s'|e s']; simpl in *.
  - rewrite Hk. exact Hm.
  - exact Hm.
Qed.

Lemma keeps_state_modify (f : fsm -> fsm) :
  (forall s, state (f s) = state s) -> keeps_state (modify f).
Proof. intros Hf s. apply Hf. Qed.

Lemma keeps_state_if {A} (b : bool) (m1 m2 : M A) :
  keeps_state m1 -> keeps_state m2 -> keeps_state (if b then m1 else m2).
Proof. destruct b; auto. Qed.

Create HintDb keeps_state.
#[local] Hint Resolve keeps_state_ret keeps_state_raise keeps_state_get
  keeps_state_bind keeps_state_modify keeps_state_if : keeps_state.

Lemma keeps_state_as_int (o : option Z) : keeps_state (as_int o).
Proof. destruct o; cbn [as_int]; auto with keeps_state. Qed.

Lemma keeps_state_len {A} (o : option (list A)) : keeps_state (len o).
Proof. destruct o; cbn [len]; auto with keeps_state. Qed.

Lemma keeps_state_ros_send (c : ros_call) : keeps_state (ros_send c).
Proof. apply keeps_state_modify. reflexivity. Qed.

#[local] Hint Resolve keeps_state_as_int keeps_state_len
  keeps_state_ros_send : keeps_state.

Lemma keeps_state_callback (a : Action.t) : keeps_state (callback a).
Proof.
  destruct a; cbn [callback];
    unfold tablet_show_library_panel, jibo_stall_story_loading,
      jibo_start_story, tablet_next_page, jibo_next_page,
      tablet_show_next_sentence, tablet_begin_record,
      tablet_stop_and_discard_record, start_child_audio_timer,
      stop_child_audio_timer, jibo_reprompt_child_audio,
      send_end_page_prompt, tablet_go_to_end_page, jibo_end_story,
      jibo_respond_to_end_story;
    repeat first
      [ apply keeps_state_bind; [| intros ?]
      | apply keeps_state_if
      | apply keeps_state_modify; reflexivity
      | match goal with
        | |- keeps_state (match ?x with _ => _ end) => destruct x
        end
      | solve [auto with keeps_state] ].
Qed.

Lemma keeps_state_run (acts : list Action.t) : keeps_state (run acts).
Proof.
  induction acts as [|a acts IH]; cbn [run].
  - apply keeps_state_ret.
  - apply keeps_state_bind; [apply keeps_state_callback | intros _; exact IH].
Qed.

(** ** A session

    The embedding runs a reading of the first page from a fresh
    controller: every call returns, and the controller ends waiting for
    the robot's interlude before page two, with the question
    answered. *)
Example first_page_runs :
  exists s,
    first_page (init student0) = Done tt s /\
    state s = WAITING_FOR_NEXT_PAGE_JIBO_INTERLUDE /\
    event_queue s = [] /\
    end_page_question_idx s = Some 0 /\
    student_calls (student_model s) =
      [update_sentences 1 ["The cat sat."; "The end."];
       question_try_answer WORD_TAP (JStr "cat") true] /\
    List.map finished (timers s) = [false; true].
Proof. eexists. split; [vm_compute; reflexivity|]. repeat split. Qed.

(** ** The handler of StorybookEvent messages *)

(** The handler enqueues exactly the kinds of [STORYBOOK_EVENT_MESSAGES],
    which are eight, and exits on every other kind. *)
Lemma handler_enqueues_the_listed_kinds (data : storybook_event) (s : fsm) :
  storybook_event_ros_message_handler data s =
  match event_type data with
  | EVALUATE_MODE_SELECTED | OTHER_EVENT _ => Abort (SystemExit 1) s
  | _ => Done tt (set_event_queue (event_queue s ++ [data]) s)
  end.
Proof.
  unfold storybook_event_ros_message_handler.
  destruct (event_type data); reflexivity.
Qed.

(** C1. The handler does not enqueue a message of kind
    EVALUATE_MODE_SELECTED: the kind is missing from
    STORYBOOK_EVENT_MESSAGES, so the handler exits the process with code
    1 and leaves the queue as it was, although the consumer has a branch
    for this kind that fires begin_evaluate_mode. *)
Theorem evaluate_mode_selected_exits
    (json_loads : string -> option json)
    (str_lower : string -> string) (msg : string) (s : fsm) :
  allowed EVALUATE_MODE_SELECTED = false /\
  storybook_event_ros_message_handler (mkEvent EVALUATE_MODE_SELECTED msg) s
    = Abort (SystemExit 1) s /\
  process_storybook_event json_loads str_lower (mkEvent EVALUATE_MODE_SELECTED msg) s
    = (begin_evaluate_mode ;; ret tt) s.
Proof. repeat split. Qed.

(** ** Transitions out of WAITING_FOR_CHILD_AUDIO *)

(** C2, as the spec has it, fails in both branches.  With more
    sentences available on a page numbered 0, tablet_show_next_sentence
    exits the process after the state was set, and
    start_child_audio_timer does not run.  On the last sentence with no
    Timer assigned, stop_child_audio_timer raises AttributeError and the
    state stays WAITING_FOR_CHILD_AUDIO. *)
Lemma audio_complete_actions_can_fail :
  ~ audio_complete_runs_its_actions
      (session_with_timer WAITING_FOR_CHILD_AUDIO 0 (-1)) /\
  ~ audio_complete_runs_its_actions (session WAITING_FOR_CHILD_AUDIO 1 1).
Proof.
  split; intros Hclaim.
  - destruct (Hclaim eq_refl) as [Htrue _].
    destruct (Htrue eq_refl) as (s1 & s' & Hshow & _).
    vm_compute in Hshow. discriminate Hshow.
  - destruct (Hclaim eq_refl) as [_ Hfalse].
    destruct (Hfalse eq_refl) as (s1 & s' & Hstop & _).
    vm_compute in Hstop. discriminate Hstop.
Qed.

(** C2, amended. In WAITING_FOR_CHILD_AUDIO, child_sentence_audio_complete
    with more_sentences_available true sets the state to
    WAITING_FOR_CHILD_AUDIO and then runs tablet_show_next_sentence and
    start_child_audio_timer, in this order; when the page number is
    above 0 and the reported index is at least -1, both return: the
    next sentence is shown and a timer made.  With the condition false
    it runs stop_child_audio_timer first, then sets the state to
    WAITING_FOR_END_PAGE_JIBO_QUESTION, then runs send_end_page_prompt;
    when a Timer is assigned and the student model has a question, all
    return: the Timer is cancelled and the first question of the student
    model is asked. *)
Theorem child_sentence_audio_complete_from_child_audio (s : fsm) :
  state s = WAITING_FOR_CHILD_AUDIO ->
  (more_sentences_available s = Done true s ->
     child_sentence_audio_complete s =
       (tablet_show_next_sentence ;; start_child_audio_timer ;; ret true)
         (set_state WAITING_FOR_CHILD_AUDIO s) /\
     state (final (child_sentence_audio_complete s))
       = WAITING_FOR_CHILD_AUDIO /\
     forall p i,
       current_page_number s = Some p -> 0 < p ->
       reported_evaluating_sentence_index s = Some i -> 0 <= i + 1 ->
       child_sentence_audio_complete s =
         Done true
           (set_timer (Some (length (timers s)))
              (timers s ++ [new_timer CHILD_AUDIO_SILENCE_TIMEOUT_SECONDS])
              (set_ros (ros s ++ [show_next_sentence_command s (i + 1)])
                 (set_state WAITING_FOR_CHILD_AUDIO s)))) /\
  (more_sentences_available s = Done false s ->
     child_sentence_audio_complete s =
       (stop_child_audio_timer ;;
        modify (set_state WAITING_FOR_END_PAGE_JIBO_QUESTION) ;;
        send_end_page_prompt ;;
        ret true) s /\
     forall h q qs,
       child_audio_evaluate_timer s = Some h ->
       get_end_page_questions (student_model s) = q :: qs ->
       child_sentence_audio_complete s =
         Done true
           (set_ros (ros s ++ ask_question q)
              (set_end_page_question_idx (Some 0)
                 (set_end_page_questions (q :: qs)
                    (set_state WAITING_FOR_END_PAGE_JIBO_QUESTION
                       (set_timer (Some h) (alter cancel h (timers s))
                          s)))))).
Proof.
  intros Hst.
  assert (Htrue : more_sentences_available s = Done true s ->
     child_sentence_audio_complete s =
       (tablet_show_next_sentence ;; start_child_audio_timer ;; ret true)
         (set_state WAITING_FOR_CHILD_AUDIO s)).
  { intros Hguard. unfold child_sentence_audio_complete. fire_from Hst.
    open_monad. rewrite Hguard. by_cases. }
  assert (Hfalse : more_sentences_available s = Done false s ->
     child_sentence_audio_complete s =
       (stop_child_audio_timer ;;
        modify (set_state WAITING_FOR_END_PAGE_JIBO_QUESTION) ;;
        send_end_page_prompt ;;
        ret true) s).
  { intros Hguard. unfold child_sentence_audio_complete. fire_from Hst.
    open_monad. rewrite Hguard. by_cases. }
  split; intros Hguard.
  - split; [auto|].
    assert (K : keeps_state
      (tablet_show_next_sentence ;; start_child_audio_timer ;; ret true)).
    { apply keeps_state_bind;
        [exact (keeps_state_callback Action.tablet_show_next_sentence)|].
      intros _. apply keeps_state_bind;
        [exact (keeps_state_callback Action.start_child_audio_timer)|].
      intros _. apply keeps_state_ret. }
    split; [rewrite (Htrue Hguard), K; reflexivity|].
    intros p i Hp Hpos Hi Hnn. pose proof Hguard as Hguard0.
    rewrite more_sentences_available_reads, Hi in Hguard.
    destruct (current_sentences s) as [l|] eqn:Hl; [|discriminate Hguard].
    injection Hguard as Hlt. apply Z.ltb_lt in Hlt.
    assert (Hp' : (p <=? 0) = false) by (apply Z.leb_gt; lia).
    assert (Hi' : (i + 1 <? 0) = false) by (apply Z.ltb_ge; lia).
    assert (Hl' : (Z.of_nat (length l) <=? i + 1) = false)
      by (apply Z.leb_gt; lia).
    rewrite (Htrue Hguard0).
    unfold tablet_show_next_sentence, start_child_audio_timer, ros_send,
      show_next_sentence_command.
    unfold bind, get, modify. flatten.
    repeat (flatten;
            first [ rewrite Hp | rewrite Hi | rewrite Hl
                  | rewrite Hp' | rewrite Hi' | rewrite Hl'
                  | progress cbn [as_int len]
                  | progress unfold ret ]).
    reflexivity.
  - split; [auto|]. intros h q qs Hh Hq. rewrite (Hfalse Hguard).
    unfold stop_child_audio_timer, send_end_page_prompt.
    open_monad. rewrite Hh. cbn. rewrite Hq. reflexivity.
Qed.

Lemma child_sentence_audio_complete_from_child_audio_witness :
  (exists s',
     child_sentence_audio_complete
       (session_with_timer WAITING_FOR_CHILD_AUDIO 1 (-1)) = Done true s' /\
     state s' = WAITING_FOR_CHILD_AUDIO /\
     ros s' = [send_storybook_command SHOW_NEXT_SENTENCE
                 (Some [("index", PInt 0); ("child_turn", PBool true);
                        ("record", PBool true)])] /\
     child_audio_evaluate_timer s' = Some 1%nat) /\
  state (final (child_sentence_audio_complete
                  (session_with_timer WAITING_FOR_CHILD_AUDIO 1 1)))
    = WAITING_FOR_END_PAGE_JIBO_QUESTION.
Proof.
  split.
  - destruct (child_sentence_audio_complete_from_child_audio
                (session_with_timer WAITING_FOR_CHILD_AUDIO 1 (-1)) eq_refl)
      as [Htrue _].
    destruct (Htrue eq_refl) as (_ & _ & Hresult).
    eexists. split.
    + apply (Hresult 1 (-1)); [reflexivity | lia | reflexivity | lia].
    + repeat split.
  - destruct (child_sentence_audio_complete_from_child_audio
                (session_with_timer WAITING_FOR_CHILD_AUDIO 1 1) eq_refl)
      as [_ Hfalse].
    destruct (Hfalse eq_refl) as [_ Hresult].
    rewrite (Hresult 0%nat tap_cat [] eq_refl eq_refl).
    reflexivity.
Defined.

(** ** Transitions out of WAITING_FOR_END_PAGE_CHILD_RESPONSE *)

(** C3. In WAITING_FOR_END_PAGE_CHILD_RESPONSE, a call of
    child_end_page_response_complete ends in
    WAITING_FOR_NEXT_PAGE_JIBO_INTERLUDE when more_pages_available is
    true and in END_STORY when it is false, but it resets nothing: the
    list of end-page questions and the index are left as they were.
    The reset is the body of the class's method of this name, which
    would empty the list and unset the index, and which the event bound
    on the object hides. *)
Theorem child_end_page_response_complete_skips_reset
    (s : fsm) (more : bool) :
  state s = WAITING_FOR_END_PAGE_CHILD_RESPONSE ->
  more_pages_available s = Done more s ->
  (exists s',
     child_end_page_response_complete s = Done true s' /\
     state s' = (if more then WAITING_FOR_NEXT_PAGE_JIBO_INTERLUDE
                 else END_STORY) /\
     end_page_questions s' = end_page_questions s /\
     end_page_question_idx s' = end_page_question_idx s) /\
  end_page_questions (final (child_end_page_response_complete_method s))
    = [] /\
  end_page_question_idx (final (child_end_page_response_complete_method s))
    = None.
Proof.
  intros Hst Hguard. split; [|split; reflexivity].
  unfold child_end_page_response_complete.
  fire_from Hst. open_monad. rewrite Hguard.
  destruct more; cbn; eexists; repeat split.
Qed.

Lemma child_end_page_response_complete_skips_reset_witness :
  exists s',
    child_end_page_response_complete (session_with_question 1 1)
      = Done true s' /\
    state s' = WAITING_FOR_NEXT_PAGE_JIBO_INTERLUDE /\
    end_page_questions s' = [tap_cat] /\
    end_page_question_idx s' = Some 0.
Proof.
  destruct (child_end_page_response_complete_skips_reset
              (session_with_question 1 1) true eq_refl eq_refl)
    as [Hcall _].
  exact Hcall.
Defined.

(** ** Triggers without a transition *)

Lemma event_transitions_In (table : list transition) (t : Trigger.t)
    (st : fsm_state) (r : transition) :
  In r (event_transitions table t st) <->
  In r table /\ trigger r = t /\ source_matches r st = true.
Proof.
  unfold event_transitions. rewrite filter_In, andb_true_iff.
  rewrite bool_decide_eq_true. reflexivity.
Qed.

(** In this table every condition has a fallback: an event that has a
    transition from a state has one without conditions. *)
Lemma every_condition_has_a_fallback (t : Trigger.t) (st : fsm_state) :
  event_transitions transitions t st = [] \/
  existsb unconditional (event_transitions transitions t st) = true.
Proof. destruct t, st; vm_compute; auto. Qed.

Lemma unmatched_no_transitions (t : Trigger.t) (s : fsm) :
  unmatched t s <-> event_transitions transitions t (state s) = [].
Proof.
  split.
  - intros Hun.
    destruct (every_condition_has_a_fallback t (state s)) as [Hnil|Hex];
      [exact Hnil|].
    apply existsb_exists in Hex as (r & Hin & Hr).
    apply event_transitions_In in Hin as (Hin & Ht & Hsrc).
    exfalso. apply (Hun r Hin). repeat split; [exact Ht | exact Hsrc |].
    unfold unconditional in Hr. destruct (conditions r); [|discriminate].
    reflexivity.
  - intros Hnil r Hin (Ht & Hsrc & _).
    assert (Hr : In r (event_transitions transitions t (state s)))
      by (apply event_transitions_In; auto).
    rewrite Hnil in Hr. destruct Hr.
Qed.

Lemma unmatched_is_machine_error (t : Trigger.t) (s : fsm) :
  event_transitions transitions t (state s) = [] ->
  fire t s = Abort MachineError s.
Proof. intros Hnil. unfold fire, bind, get. rewrite Hnil. reflexivity. Qed.

(** C4, as the spec has it, fails: storybook_selected has no transition
    from APP_START, and firing it on a fresh controller raises
    MachineError instead of returning. *)
Lemma unmatched_storybook_selected_raises :
  ~ (unmatched Trigger.storybook_selected (init student0) ->
     exists fired,
       fire Trigger.storybook_selected (init student0)
         = Done fired (init student0)).
Proof.
  intros Hclaim.
  destruct Hclaim as [fired Hfired].
  - apply unmatched_no_transitions. reflexivity.
  - vm_compute in Hfired. discriminate Hfired.
Qed.

(** C4, amended. When no transition of the table has the trigger, a
    source matching the current state and conditions that all hold,
    firing the trigger raises MachineError (the machine is built without
    ignore_invalid_triggers) and leaves the state, and the rest of the
    controller, as it was. *)
Theorem unmatched_trigger_raises_machine_error (t : Trigger.t) (s : fsm) :
  unmatched t s -> fire t s = Abort MachineError s.
Proof.
  intros Hun. apply unmatched_is_machine_error.
  apply unmatched_no_transitions. exact Hun.
Qed.

Lemma unmatched_trigger_raises_machine_error_witness :
  fire Trigger.child_sentence_audio_complete
       (session WAITING_FOR_NEXT_PAGE 1 (-1))
  = Abort MachineError (session WAITING_FOR_NEXT_PAGE 1 (-1)).
Proof.
  apply (unmatched_trigger_raises_machine_error
           Trigger.child_sentence_audio_complete
           (session WAITING_FOR_NEXT_PAGE 1 (-1))).
  intros r Hin (Ht & Hsrc & _).
  simpl in Hin.
  repeat (destruct Hin as [<-|Hin];
          [try discriminate Ht; vm_compute in Hsrc; discriminate Hsrc|]).
  destruct Hin.
Defined.

(** ** The timeout of the child's audio *)

(** C5, as the spec has it, fails: the timeout transition leaves the
    Timer objects and the reference to the current one untouched. *)
Lemma timeout_does_not_restart_timer :
  ~ timeout_restarts_timer (session_with_timer WAITING_FOR_CHILD_AUDIO 1 (-1)).
Proof.
  intros (s' & Hcall & _ & _ & _ & Htimers).
  vm_compute in Hcall. injection Hcall as <-.
  vm_compute in Htimers. discriminate Htimers.
Qed.

Lemma child_audio_timeout_result (s : fsm) :
  state s = WAITING_FOR_CHILD_AUDIO ->
  child_audio_timeout s =
    Done true (set_ros (ros s ++ timeout_commands)
                 (set_state WAITING_FOR_CHILD_AUDIO s)).
Proof.
  intros Hst.
  unfold child_audio_timeout. fire_from Hst. open_monad.
  unfold jibo_reprompt_child_audio, tablet_stop_and_discard_record,
    ros_send.
  open_monad. flatten. rewrite <- !app_assoc. reflexivity.
Qed.

Lemma jibo_finish_tts_in_child_audio (s : fsm) :
  state s = WAITING_FOR_CHILD_AUDIO ->
  jibo_finish_tts s =
    Done true
      (set_ros (ros s ++ [send_storybook_command START_RECORD None])
         (set_timer (Some (length (timers s)))
            (timers s ++ [new_timer CHILD_AUDIO_SILENCE_TIMEOUT_SECONDS])
            (set_state WAITING_FOR_CHILD_AUDIO s))).
Proof.
  intros Hst.
  unfold jibo_finish_tts. fire_from Hst. open_monad.
  unfold start_child_audio_timer, tablet_begin_record, ros_send.
  open_monad. flatten. reflexivity.
Qed.

(** C5, amended. In WAITING_FOR_CHILD_AUDIO, child_audio_timeout sends
    the reprompt to the robot and then CANCEL_RECORD to the tablet, and
    stays in WAITING_FOR_CHILD_AUDIO; it leaves the timer as it is.  A
    new timer is made, and START_RECORD sent, by the jibo_finish_tts
    that follows in this state. *)
Theorem child_audio_timeout_from_child_audio (s : fsm) :
  state s = WAITING_FOR_CHILD_AUDIO ->
  exists s',
    child_audio_timeout s = Done true s' /\
    state s' = WAITING_FOR_CHILD_AUDIO /\
    ros s' = ros s ++ timeout_commands /\
    child_audio_evaluate_timer s' = child_audio_evaluate_timer s /\
    timers s' = timers s /\
    exists s'',
      jibo_finish_tts s' = Done true s'' /\
      state s'' = WAITING_FOR_CHILD_AUDIO /\
      ros s'' = ros s' ++ [send_storybook_command START_RECORD None] /\
      timer_restarted s' s''.
Proof.
  intros Hst.
  eexists. split; [apply (child_audio_timeout_result s Hst)|].
  do 4 (split; [reflexivity|]).
  eexists. split; [apply jibo_finish_tts_in_child_audio; reflexivity|].
  do 2 (split; [reflexivity|]).
  split; reflexivity.
Qed.

Lemma child_audio_timeout_from_child_audio_witness :
  exists s',
    child_audio_timeout (session_with_timer WAITING_FOR_CHILD_AUDIO 1 (-1))
      = Done true s' /\
    state s' = WAITING_FOR_CHILD_AUDIO /\
    ros s' = timeout_commands /\
    child_audio_evaluate_timer s' = Some 0%nat /\
    timers s' = [new_timer 8].
Proof.
  destruct (child_audio_timeout_from_child_audio
              (session_with_timer WAITING_FOR_CHILD_AUDIO 1 (-1)) eq_refl)
    as (s' & Hcall & Hst & Hros & Hh & Hts & _).
  exists s'. repeat split; assumption.
Defined.

(** ** The timer *)

(** C6. What start_child_audio_timer does instead of restarting: it
    makes a Timer and assigns it, but never starts it, so the new timer
    is not pending; and it cancels nothing, so every earlier Timer is as
    it was and the number of pending timers is unchanged.  On a session
    whose timer was made by an earlier start, stopping and then starting
    differs from starting alone: only the first cancels the old Timer. *)
Theorem start_child_audio_timer_arms_and_cancels_nothing (s : fsm) :
  (exists s',
     start_child_audio_timer s = Done tt s' /\
     child_audio_evaluate_timer s' = Some (length (timers s)) /\
     timers s' !! length (timers s)
       = Some (new_timer CHILD_AUDIO_SILENCE_TIMEOUT_SECONDS) /\
     pending (new_timer CHILD_AUDIO_SILENCE_TIMEOUT_SECONDS) = false /\
     (forall r t, timers s !! r = Some t -> timers s' !! r = Some t) /\
     outstanding s' = outstanding s) /\
  (stop_child_audio_timer ;; start_child_audio_timer)
     (session_with_timer WAITING_FOR_CHILD_AUDIO 1 (-1))
  <> start_child_audio_timer
       (session_with_timer WAITING_FOR_CHILD_AUDIO 1 (-1)).
Proof.
  split.
  - eexists. split; [reflexivity|]. flatten.
    split; [reflexivity|].
    split; [apply list_lookup_middle; reflexivity|].
    split; [reflexivity|].
    split.
    + intros r t Hr. apply lookup_app_l_Some. exact Hr.
    + unfold outstanding. flatten.
      rewrite List.filter_app, length_app. cbn. lia.
  - intros Heq.
    apply (f_equal (fun o => finished <$> timers (final o) !! 0%nat)) in Heq.
    vm_compute in Heq. discriminate Heq.
Qed.

(** ** The expiry of the timer *)

(** C7, as the spec has it, fails: the callback enqueues nothing. *)
Lemma timer_expire_enqueues_nothing :
  ~ expiry_only_enqueues (session_with_timer WAITING_FOR_CHILD_AUDIO 1 (-1)).
Proof.
  intros (ev & Hcall).
  apply (f_equal (fun o => event_queue (final o))) in Hcall.
  vm_compute in Hcall. discriminate Hcall.
Qed.

(** C7, amended. The callback of the timer calls child_audio_timeout
    itself: in WAITING_FOR_CHILD_AUDIO the timeout transition and its
    actions run inside the callback, in any other state the callback
    ends with MachineError; the event queue is left as it was. *)
Theorem timer_expire_fires_inline (s : fsm) :
  timer_expire s =
    (if bool_decide (state s = WAITING_FOR_CHILD_AUDIO)
     then Done tt (set_ros (ros s ++ timeout_commands)
                     (set_state WAITING_FOR_CHILD_AUDIO s))
     else Abort MachineError s) /\
  event_queue (final (timer_expire s)) = event_queue s.
Proof.
  assert (Hcall : timer_expire s =
    (if bool_decide (state s = WAITING_FOR_CHILD_AUDIO)
     then Done tt (set_ros (ros s ++ timeout_commands)
                     (set_state WAITING_FOR_CHILD_AUDIO s))
     else Abort MachineError s)).
  { unfold timer_expire. unfold bind at 1.
    case_bool_decide as Hst.
    - rewrite (child_audio_timeout_result s Hst). reflexivity.
    - unfold child_audio_timeout.
      rewrite unmatched_is_machine_error; [reflexivity|].
      destruct (state s); try reflexivity. contradiction. }
  split; [exact Hcall|]. rewrite Hcall.
  case_bool_decide; reflexivity.
Qed.

(** The handler of JiboState messages does the same when the robot
    falls silent: the transition runs inside the handler, here the one
    from WAITING_FOR_STORY_LOAD, and nothing is enqueued. *)
Lemma jibo_state_handler_fires_inline (s : fsm) :
  state s = WAITING_FOR_STORY_LOAD ->
  jibo_tts_on s = true ->
  jibo_state_ros_message_handler false s =
    Done tt
      (set_jibo_tts_on false
         (set_ros (ros s ++ [send_storybook_command NEXT_PAGE None])
            (set_state WAITING_FOR_NEXT_PAGE s))).
Proof.
  intros Hst Hon.
  unfold jibo_state_ros_message_handler.
  unfold bind at 1, get at 1. rewrite Hon. cbn [negb andb].
  unfold bind at 1. unfold bind at 1.
  unfold jibo_finish_tts. fire_from Hst. open_monad.
  unfold tablet_next_page, ros_send. open_monad. reflexivity.
Qed.

(** ** Conditions on a session without a page *)

(** C8, as the spec has it, fails on a fresh controller, where no page
    and no story state has been received: the conditions raise. *)
Lemma conditions_raise_on_fresh_controller :
  ~ conditions_return (init student0).
Proof.
  intros [[b Hb] _]. vm_compute in Hb. discriminate Hb.
Qed.

(** C8, amended. The conditions return, with the comparison as their
    value and the controller as it was, exactly when the attributes they
    read are set; when one of them is None they raise TypeError. *)
Theorem conditions_return_when_data_present (s : fsm) :
  more_sentences_available s =
    match reported_evaluating_sentence_index s, current_sentences s with
    | Some i, Some l => Done (i + 1 <? Z.of_nat (length l)) s
    | _, _ => Abort TypeError s
    end /\
  more_pages_available s =
    match current_page_number s, num_story_pages s with
    | Some p, Some n => Done (p + 1 <? n) s
    | _, _ => Abort TypeError s
    end.
Proof.
  split.
  - apply more_sentences_available_reads.
  - apply more_pages_available_reads.
Qed.

(** ** Answers to the end-page question *)

(** C10. While a question is current, try_answer_question with another
    question type returns and leaves the controller as it was; with the
    type of the current question it calls try_answer of the question
    and then child_end_page_response_complete, whatever the verdict of
    try_answer was. *)
Theorem try_answer_question_dispatch
    (s : fsm) (i : Z) (q : end_page_question)
    (qt : EndPageQuestionType) (query : jval) :
  end_page_question_idx s = Some i ->
  0 <= i ->
  end_page_questions s !! Z.to_nat i = Some q ->
  try_answer_question qt query s =
    if bool_decide (qt = question_type q)
    then (child_end_page_response_complete ;; ret tt)
           (set_student_calls
              (student_calls (student_model s) ++
               [question_try_answer (question_type q) query
                                    (try_answer q query)])
              s)
    else Done tt s.
Proof.
  intros Hidx Hpos Hq.
  assert (Hcur : current_end_page_question s = Done q s).
  { unfold current_end_page_question, bind, get. rewrite Hidx.
    apply lookup_lt_Some in Hq as Hlt.
    replace (i <? 0) with false by (symmetry; apply Z.ltb_ge; lia).
    replace (Z.of_nat (length (end_page_questions s)) <=? i) with false
      by (symmetry; apply Z.leb_gt; lia).
    cbn [orb]. rewrite Hq. reflexivity. }
  unfold try_answer_question. unfold bind at 1. rewrite Hcur.
  case_bool_decide as Hqt; cbn [negb]; [|reflexivity].
  unfold bind at 1. rewrite Hcur.
  unfold bind at 1. unfold student_do, modify. reflexivity.
Qed.

Lemma try_answer_question_dispatch_witness :
  try_answer_question SCENE_OBJECT_TAP (JStr "cat")
    (session_with_question 1 1)
  = Done tt (session_with_question 1 1) /\
  try_answer tap_cat (JStr "dog") = false /\
  state (final (try_answer_question WORD_TAP (JStr "dog")
                  (session_with_question 1 1)))
  = WAITING_FOR_NEXT_PAGE_JIBO_INTERLUDE.
Proof.
  split; [|split].
  - rewrite (try_answer_question_dispatch (session_with_question 1 1)
               0 tap_cat SCENE_OBJECT_TAP (JStr "cat") eq_refl);
      [reflexivity | lia | reflexivity].
  - reflexivity.
  - rewrite (try_answer_question_dispatch (session_with_question 1 1)
               0 tap_cat WORD_TAP (JStr "dog") eq_refl);
      [reflexivity | lia | reflexivity].
Defined.

(** * Further properties *)

(** ** Properties kept by every method *)

Lemma final_bind {A B} (m : M A) (k : A -> M B) (s : fsm) :
  final (bind m k s) =
  match m s with
  | Done a s' => final (k a s')
  | Abort _ s' => s'
  end.
Proof. unfold bind. destruct (m s); reflexivity. Qed.

Lemma preserves_ret {A} (P : fsm -> Prop) (a : A) : preserves P (ret a).
Proof. intros s Hs. exact Hs. Qed.

Lemma preserves_raise {A} (P : fsm -> Prop) (e : failure) :
  preserves P (@raise A e).
Proof. intros s Hs. exact Hs. Qed.

Lemma preserves_get {A} (P : fsm -> Prop) (f : fsm -> A) :
  preserves P (get f).
Proof. intros s Hs. exact Hs. Qed.

Lemma preserves_modify (P : fsm -> Prop) (f : fsm -> fsm) :
  (forall s, P s -> P (f s)) -> preserves P (modify f).
Proof. intros Hf s Hs. apply Hf. exact Hs. Qed.

Lemma preserves_bind {A B} (P : fsm -> Prop) (m : M A) (k : A -> M B) :
  preserves P m -> (forall a, preserves P (k a)) -> preserves P (bind m k).
Proof.
  intros Hm Hk s Hs. rewrite final_bind. specialize (Hm s Hs).
  destruct (m s) as [a s'|e s']; cbn [final] in Hm.
  - apply Hk. exact Hm.
  - exact Hm.
Qed.

Lemma keeps_state_condition (c : Cond.t) : keeps_state (condition c).
Proof.
  intros s. destruct c; cbn [condition].
  - rewrite more_sentences_available_reads.
    destruct (reported_evaluating_sentence_index s), (current_sentences s);
      reflexivity.
  - rewrite more_pages_available_reads.
    destruct (current_page_number s), (num_story_pages s); reflexivity.
Qed.

Lemma keeps_state_check (cs : list Cond.t) : keeps_state (check cs).
Proof.
  induction cs as [|c cs IH]; cbn [check].
  - apply keeps_state_ret.
  - apply keeps_state_bind; [apply keeps_state_condition|].
    intros [|]; [exact IH | apply keeps_state_ret].
Qed.

Lemma set_state_current (s : fsm) : set_state (state s) s = s.
Proof. destruct s; reflexivity. Qed.

(** Walks through a method, one call at a time. *)
Ltac preserve HP :=
  repeat first
    [ apply preserves_ret
    | apply preserves_raise
    | apply preserves_get
    | apply preserves_bind; [| intros ?]
    | apply preserves_modify; intros ? ?;
        first [ apply (stable_ros _ HP) | apply (stable_student _ HP)
              | apply (stable_start _ HP) | apply (stable_questions _ HP)
              | apply (stable_idx_none _ HP) | apply (stable_idx_zero _ HP)
              | apply (stable_tts _ HP) | apply (stable_asr _ HP)
              | apply (stable_needs _ HP) | apply (stable_page _ HP)
              | apply (stable_story _ HP) ];
        assumption
    | match goal with
      | |- preserves _ (match ?x with _ => _ end) => destruct x
      end ].

Lemma preserves_stop_child_audio_timer (P : fsm -> Prop) :
  stable P -> preserves P stop_child_audio_timer.
Proof.
  intros HP s Hs. unfold stop_child_audio_timer, bind, get.
  destruct (child_audio_evaluate_timer s) as [r|] eqn:Hr; cbn.
  - apply (stable_stop _ HP); assumption.
  - exact Hs.
Qed.

Lemma preserves_callback (P : fsm -> Prop) (a : Action.t) :
  stable P -> preserves P (callback a).
Proof.
  intros HP.
  destruct a; cbn [callback];
    try apply (preserves_stop_child_audio_timer P HP);
    unfold tablet_show_library_panel, jibo_stall_story_loading,
      jibo_start_story, tablet_next_page, jibo_next_page,
      tablet_show_next_sentence, tablet_begin_record,
      tablet_stop_and_discard_record, start_child_audio_timer,
      jibo_reprompt_child_audio, send_end_page_prompt,
      tablet_go_to_end_page, jibo_end_story, jibo_respond_to_end_story,
      ros_send, as_int, len;
    preserve HP.
Qed.

Lemma preserves_run (P : fsm -> Prop) (acts : list Action.t) :
  stable P -> preserves P (run acts).
Proof.
  intros HP. induction acts as [|a acts IH]; cbn [run].
  - apply preserves_ret.
  - apply preserves_bind; [apply preserves_callback; exact HP|].
    intros _. exact IH.
Qed.

(** Conditions only read: whatever they return, the controller is as
    it was. *)
Lemma check_reads (cs : list Cond.t) (s : fsm) : final (check cs s) = s.
Proof.
  induction cs as [|c cs IH]; cbn [check]; [reflexivity|].
  rewrite final_bind. destruct c; cbn [condition].
  - rewrite more_sentences_available_reads.
    destruct (reported_evaluating_sentence_index s), (current_sentences s);
      try reflexivity.
    destruct (_ <? _); [exact IH | reflexivity].
  - rewrite more_pages_available_reads.
    destruct (current_page_number s), (num_story_pages s);
      try reflexivity.
    destruct (_ <? _); [exact IH | reflexivity].
Qed.

Lemma preserves_execute (P : fsm -> Prop) (r : transition) (s : fsm) :
  stable P -> In r transitions -> P s ->
  P (final (execute (state s) r s)).
Proof.
  intros HP Hin Hs. unfold execute. rewrite final_bind.
  pose proof (check_reads (conditions r) s) as Hread.
  destruct (check (conditions r) s) as [ok s0|e s0]; cbn [final] in Hread;
    subst s0; [|exact Hs].
  destruct ok; [|exact Hs].
  rewrite final_bind.
  pose proof (preserves_run P (before r) HP s Hs) as Hb.
  pose proof (keeps_state_run (before r) s) as Hkeep.
  destruct (run (before r) s) as [[] s1|e s1]; cbn [final] in Hb, Hkeep;
    [|exact Hb].
  rewrite final_bind. unfold modify at 1.
  assert (Hset : P (set_state (dest_state r (state s)) s1)).
  { unfold dest_state. destruct (dest r) as [|d] eqn:Hd.
    - rewrite <- Hkeep, set_state_current. exact Hb.
    - apply (stable_state _ HP); [exact Hb|].
      rewrite <- Hd. apply in_map. exact Hin. }
  rewrite final_bind.
  pose proof (preserves_run P (after r) HP _ Hset) as Ha.
  destruct (run (after r) _) as [[] s2|e s2]; cbn [final] in Ha; exact Ha.
Qed.

(** A transition whose conditions fail leaves the controller as it
    was. *)
Lemma execute_not_fired (st : fsm_state) (r : transition) (s s' : fsm) :
  execute st r s = Done false s' -> s' = s.
Proof.
  unfold execute, bind. intros He.
  pose proof (check_reads (conditions r) s) as Hread.
  destruct (check (conditions r) s) as [ok s0|e s0]; cbn [final] in Hread;
    subst s0; [|discriminate He].
  destruct ok.
  - destruct (run (before r) s) as [[] s1|]; [|discriminate He].
    unfold modify in He.
    destruct (run (after r) _) as [[] s2|]; discriminate He.
  - unfold ret in He. congruence.
Qed.

Lemma preserves_process (P : fsm -> Prop) (rs : list transition)
    (s : fsm) :
  stable P -> (forall r, In r rs -> In r transitions) -> P s ->
  P (final (process (state s) rs s)).
Proof.
  intros HP. induction rs as [|r rs IH]; intros Hin Hs; cbn [process].
  - exact Hs.
  - rewrite final_bind.
    pose proof (preserves_execute P r s HP (Hin r (or_introl eq_refl)) Hs)
      as He.
    destruct (execute (state s) r s) as [[|] s1|e s1] eqn:Hex;
      cbn [final] in He.
    + exact He.
    + apply execute_not_fired in Hex. subst s1.
      apply IH; [|exact Hs].
      intros r' Hr'. apply Hin. right. exact Hr'.
    + exact He.
Qed.

Lemma preserves_fire (P : fsm -> Prop) (t : Trigger.t) :
  stable P -> preserves P (fire t).
Proof.
  intros HP s Hs. unfold fire. rewrite final_bind. unfold get.
  destruct (event_transitions transitions t (state s)) as [|r rs] eqn:Hrs;
    [exact Hs|].
  rewrite <- Hrs. apply preserves_process; [exact HP| |exact Hs].
  intros r' Hr'. apply event_transitions_In in Hr'. apply Hr'.
Qed.

Lemma preserves_child_end_page_response_complete (P : fsm -> Prop) :
  stable P -> preserves P child_end_page_response_complete.
Proof.
  intros HP. unfold child_end_page_response_complete.
  apply preserves_fire. exact HP.
Qed.

Lemma preserves_current_end_page_question (P : fsm -> Prop) :
  preserves P current_end_page_question.
Proof.
  intros s Hs. unfold current_end_page_question, bind, get.
  destruct (end_page_question_idx s) as [i|]; [|exact Hs].
  destruct (_ || _); [exact Hs|].
  destruct (_ !! _); exact Hs.
Qed.

Lemma preserves_try_answer_question (P : fsm -> Prop)
    (qt : EndPageQuestionType) (query : jval) :
  stable P -> preserves P (try_answer_question qt query).
Proof.
  intros HP. unfold try_answer_question.
  apply preserves_bind; [apply preserves_current_end_page_question|].
  intros q. destruct (negb _); [apply preserves_ret|].
  apply preserves_bind; [apply preserves_current_end_page_question|].
  intros q'. unfold student_do.
  apply preserves_bind;
    [apply preserves_modify; intros; apply (stable_student _ HP);
     assumption|].
  intros _. apply preserves_bind;
    [apply preserves_child_end_page_response_complete; exact HP|].
  intros _. apply preserves_ret.
Qed.

(** Walks through a handler: as [preserve], with the triggers and the
    helper taken whole. *)
Ltac preserve_handler HP :=
  repeat first
    [ apply preserves_fire; exact HP
    | apply preserves_child_end_page_response_complete; exact HP
    | apply preserves_try_answer_question; exact HP
    | apply preserves_ret
    | apply preserves_raise
    | apply preserves_get
    | apply preserves_bind; [| intros ?]
    | apply preserves_modify; intros ? ?;
        first [ apply (stable_ros _ HP) | apply (stable_student _ HP)
              | apply (stable_tts _ HP) | apply (stable_asr _ HP)
              | apply (stable_needs _ HP) | apply (stable_page _ HP)
              | apply (stable_story _ HP) ];
        assumption
    | match goal with
      | |- preserves _ (match ?x with _ => _ end) => destruct x
      end ].

Lemma preserves_process_storybook_event (P : fsm -> Prop)
    (json_loads : string -> option json)
    (str_lower : string -> string) (data : storybook_event) :
  stable P -> preserves P (process_storybook_event json_loads str_lower data).
Proof.
  intros HP.
  unfold process_storybook_event, loads, item, ros_send, student_do,
    in_evaluate_mode, in_explore_mode, begin_evaluate_mode,
    child_sentence_audio_complete, storybook_selected, storybook_loaded.
  preserve_handler HP.
Qed.

Lemma preserves_page_info_handler (P : fsm -> Prop)
    (data : StorybookPageInfo) :
  stable P -> preserves P (storybook_page_info_ros_message_handler data).
Proof.
  intros HP.
  unfold storybook_page_info_ros_message_handler, student_do,
    page_info_received.
  preserve_handler HP.
Qed.

Lemma preserves_state_handler (P : fsm -> Prop) (data : StorybookState) :
  stable P -> preserves P (storybook_state_ros_message_handler data).
Proof.
  intros HP. unfold storybook_state_ros_message_handler.
  preserve_handler HP.
Qed.

Lemma preserves_jibo_state_handler (P : fsm -> Prop) (playing : bool) :
  stable P -> preserves P (jibo_state_ros_message_handler playing).
Proof.
  intros HP. unfold jibo_state_ros_message_handler, jibo_finish_tts.
  preserve_handler HP.
Qed.

Lemma preserves_jibo_asr_handler (P : fsm -> Prop)
    (ASR_NOSPEECH transcription : string) :
  stable P ->
  preserves P (jibo_asr_ros_message_handler ASR_NOSPEECH transcription).
Proof.
  intros HP. unfold jibo_asr_ros_message_handler, jibo_finish_child_asr.
  preserve_handler HP.
Qed.

Lemma preserves_timer_expire (P : fsm -> Prop) :
  stable P -> preserves P timer_expire.
Proof.
  intros HP. unfold timer_expire, child_audio_timeout.
  preserve_handler HP.
Qed.

Lemma stable_preserved (P : fsm -> Prop)
    (json_loads : string -> option json)
    (str_lower : string -> string) (ASR_NOSPEECH : string)
    (m : M unit) :
  stable P -> entry json_loads str_lower ASR_NOSPEECH m -> preserves P m.
Proof.
  intros HP [data|data|data|playing|transcription|].
  - apply preserves_process_storybook_event. exact HP.
  - apply preserves_page_info_handler. exact HP.
  - apply preserves_state_handler. exact HP.
  - apply preserves_jibo_state_handler. exact HP.
  - apply preserves_jibo_asr_handler. exact HP.
  - apply preserves_timer_expire. exact HP.
Qed.

(** ** What the controller keeps, whoever calls it *)

Lemma stable_event_queue (q : list storybook_event) :
  stable (fun s => event_queue s = q).
Proof. split; intros; assumption. Qed.

(** X1. Only the handler of StorybookEvent messages and the consumer
    touch the event queue: the handlers of page-info, storybook-state,
    JiboState and ASR messages, the handling of a dequeued message and
    the timer callback leave the queue as it was, also when they end
    with an exception. *)
Theorem entries_leave_queue
    (json_loads : string -> option json)
    (str_lower : string -> string) (ASR_NOSPEECH : string)
    (m : M unit) (s : fsm) :
  entry json_loads str_lower ASR_NOSPEECH m ->
  event_queue (final (m s)) = event_queue s.
Proof.
  intros Hm.
  apply (stable_preserved _ json_loads str_lower ASR_NOSPEECH m
           (stable_event_queue (event_queue s)) Hm s).
  reflexivity.
Qed.

Lemma entries_leave_queue_witness :
  event_queue
    (final (storybook_page_info_ros_message_handler
              (mkPageInfo 1 ["The cat sat."] [] [])
              (session WAITING_FOR_NEXT_PAGE 1 (-1))))
  = event_queue (session WAITING_FOR_NEXT_PAGE 1 (-1)).
Proof.
  apply (entries_leave_queue decode0 lower0 EmptyString).
  apply entry_page_info.
Defined.

Lemma stable_no_timer_started : stable no_timer_started.
Proof.
  unfold no_timer_started.
  split; intros; cbn; try assumption.
  - apply Forall_app. split; [assumption|].
    constructor; [reflexivity | constructor].
  - apply Forall_alter; [assumption|]. intros t _ Ht. exact Ht.
Qed.

(** X2. No method of the controller starts a Timer: when no Timer has
    been started, none has been after any handler, any handling of a
    dequeued message or the timer callback.  On a controller made by
    __init__ the countdown therefore never runs. *)
Theorem entries_start_no_timer
    (json_loads : string -> option json)
    (str_lower : string -> string) (ASR_NOSPEECH : string)
    (m : M unit) (s : fsm) :
  entry json_loads str_lower ASR_NOSPEECH m ->
  no_timer_started s -> no_timer_started (final (m s)).
Proof.
  intros Hm.
  apply (stable_preserved _ json_loads str_lower ASR_NOSPEECH m
           stable_no_timer_started Hm s).
Qed.

Lemma entries_start_no_timer_witness :
  no_timer_started
    (final (storybook_page_info_ros_message_handler
              (mkPageInfo 1 ["The cat sat."] [] [])
              (session WAITING_FOR_NEXT_PAGE 1 (-1)))) /\
  length
    (timers
       (final (storybook_page_info_ros_message_handler
                 (mkPageInfo 1 ["The cat sat."] [] [])
                 (session WAITING_FOR_NEXT_PAGE 1 (-1))))) = 1%nat.
Proof.
  split; [|reflexivity].
  apply (entries_start_no_timer decode0 lower0 EmptyString).
  - apply entry_page_info.
  - constructor.
Defined.

Lemma stable_timer_reference_valid : stable timer_reference_valid.
Proof.
  unfold timer_reference_valid.
  split; intros; cbn in *; auto.
  - match goal with H : Some _ = Some _ |- _ => injection H as <- end.
    rewrite length_app. cbn. lia.
  - match goal with H : Some _ = Some _ |- _ => injection H as <- end.
    rewrite length_alter. auto.
Qed.

(** X3. The reference to the current Timer is never dangling: when
    child_audio_evaluate_timer is unset or refers to a Timer that was
    made, it still does after any handler, any handling of a dequeued
    message or the timer callback. *)
Theorem entries_keep_timer_reference
    (json_loads : string -> option json)
    (str_lower : string -> string) (ASR_NOSPEECH : string)
    (m : M unit) (s : fsm) :
  entry json_loads str_lower ASR_NOSPEECH m ->
  timer_reference_valid s -> timer_reference_valid (final (m s)).
Proof.
  intros Hm.
  apply (stable_preserved _ json_loads str_lower ASR_NOSPEECH m
           stable_timer_reference_valid Hm s).
Qed.

Lemma entries_keep_timer_reference_witness :
  timer_reference_valid
    (final (storybook_page_info_ros_message_handler
              (mkPageInfo 1 ["The cat sat."] [] [])
              (session WAITING_FOR_NEXT_PAGE 1 (-1)))).
Proof.
  apply (entries_keep_timer_reference decode0 lower0 EmptyString).
  - apply entry_page_info.
  - intros r Hr. discriminate Hr.
Defined.

Lemma destinations_are_evaluate_states (d : fsm_state) :
  In (To d) (List.map dest transitions) ->
  d <> APP_START /\ d <> BEGIN_EXPLORE.
Proof.
  cbn. intros Hd.
  repeat (destruct Hd as [Hd|Hd];
          [first [discriminate Hd
                 | injection Hd as <-; split; discriminate]|]).
  destruct Hd.
Qed.

Lemma stable_not_in_state (st : fsm_state) :
  (st = APP_START \/ st = BEGIN_EXPLORE) ->
  stable (fun s => state s <> st).
Proof.
  intros Hst. split; intros; cbn; try assumption.
  apply destinations_are_evaluate_states in H0.
  destruct Hst as [->| ->]; apply H0.
Qed.

(** X4. No transition leads to APP_START or to BEGIN_EXPLORE: a
    controller that is not in BEGIN_EXPLORE, as after __init__, is never
    in it after a handler, the handling of a dequeued message or the
    timer callback, and a controller that has left APP_START never
    comes back to it. *)
Theorem entries_never_enter_start_or_explore
    (json_loads : string -> option json)
    (str_lower : string -> string) (ASR_NOSPEECH : string)
    (m : M unit) (s : fsm) :
  entry json_loads str_lower ASR_NOSPEECH m ->
  (state s <> BEGIN_EXPLORE -> state (final (m s)) <> BEGIN_EXPLORE) /\
  (state s <> APP_START -> state (final (m s)) <> APP_START).
Proof.
  intros Hm. split.
  - apply (stable_preserved _ json_loads str_lower ASR_NOSPEECH m
             (stable_not_in_state BEGIN_EXPLORE (or_intror eq_refl)) Hm s).
  - apply (stable_preserved _ json_loads str_lower ASR_NOSPEECH m
             (stable_not_in_state APP_START (or_introl eq_refl)) Hm s).
Qed.

Lemma entries_never_enter_start_or_explore_witness :
  state (final (process_storybook_event decode0 lower0
                  (mkEvent HELLO_WORLD EmptyString) (init student0)))
    <> BEGIN_EXPLORE /\
  state (final (timer_expire (session WAITING_FOR_NEXT_PAGE 1 (-1))))
    <> APP_START.
Proof.
  split.
  - apply (entries_never_enter_start_or_explore decode0 lower0 EmptyString _
             (init student0) (entry_event _ _ _ _)).
    discriminate.
  - apply (entries_never_enter_start_or_explore decode0 lower0 EmptyString _
             (session WAITING_FOR_NEXT_PAGE 1 (-1)) (entry_timer _ _ _)).
    discriminate.
Defined.

Lemma stable_first_question_only : stable first_question_only.
Proof.
  unfold first_question_only.
  split; intros; cbn; try assumption; auto.
Qed.

(** X5. Only the first end-page question is ever current: when
    end_page_question_idx is None or 0, it is None or 0 after any
    handler, any handling of a dequeued message or the timer callback;
    no method advances the index. *)
Theorem entries_ask_first_question_only
    (json_loads : string -> option json)
    (str_lower : string -> string) (ASR_NOSPEECH : string)
    (m : M unit) (s : fsm) :
  entry json_loads str_lower ASR_NOSPEECH m ->
  first_question_only s -> first_question_only (final (m s)).
Proof.
  intros Hm.
  apply (stable_preserved _ json_loads str_lower ASR_NOSPEECH m
           stable_first_question_only Hm s).
Qed.

Lemma entries_ask_first_question_only_witness :
  first_question_only
    (final (process_storybook_event decode0 lower0
              (mkEvent RECORD_AUDIO_COMPLETE index_text)
              (session_with_timer WAITING_FOR_CHILD_AUDIO 1 1))) /\
  end_page_question_idx
    (final (process_storybook_event decode0 lower0
              (mkEvent RECORD_AUDIO_COMPLETE index_text)
              (session_with_timer WAITING_FOR_CHILD_AUDIO 1 1))) = Some 0.
Proof.
  split; [|reflexivity].
  apply (entries_ask_first_question_only decode0 lower0 EmptyString).
  - apply entry_event.
  - left. reflexivity.
Defined.

(** ** The event queue *)

(** X6. The queue is first in, first out, and a turn of the consumer
    takes exactly one message: on an empty queue the turn does nothing;
    otherwise it handles the oldest message on the controller without
    it, and whatever the handling does, with or without an exception,
    the queue is then the rest. *)
Theorem consumer_turn_takes_the_oldest
    (json_loads : string -> option json)
    (str_lower : string -> string) (s : fsm) :
  match event_queue s with
  | [] => consumer_turn json_loads str_lower s = Done tt s
  | data :: rest =>
      consumer_turn json_loads str_lower s =
        process_storybook_event json_loads str_lower data (set_event_queue rest s) /\
      event_queue (final (consumer_turn json_loads str_lower s)) = rest
  end.
Proof.
  unfold consumer_turn, bind, get.
  destruct (event_queue s) as [|data rest] eqn:Hq; [reflexivity|].
  unfold modify. split; [reflexivity|].
  apply (preserves_process_storybook_event _ json_loads str_lower data
           (stable_event_queue rest)).
  reflexivity.
Qed.

Lemma consumer_turn_queue (json_loads : string -> option json)
    (str_lower : string -> string) (s : fsm) :
  event_queue (final (consumer_turn json_loads str_lower s)) = tail (event_queue s).
Proof.
  unfold consumer_turn, bind, get.
  destruct (event_queue s) as [|data rest] eqn:Hq; cbn [final tail].
  - exact Hq.
  - unfold modify.
    apply (preserves_process_storybook_event _ json_loads str_lower data
             (stable_event_queue rest)).
    reflexivity.
Qed.

(** X7. The queue only ever holds messages of the eight listed kinds:
    the handler and the consumer keep it so, which makes the branch of
    the consumer for EVALUATE_MODE_SELECTED, and its fall-through for
    unknown kinds, unreachable for messages that came through the
    handler. *)
Theorem queue_holds_listed_kinds
    (json_loads : string -> option json)
    (str_lower : string -> string) (data : storybook_event)
    (s : fsm) :
  queue_allowed s ->
  queue_allowed (final (storybook_event_ros_message_handler data s)) /\
  queue_allowed (final (consumer_turn json_loads str_lower s)) /\
  (forall oldest rest,
     event_queue s = oldest :: rest ->
     event_type oldest <> EVALUATE_MODE_SELECTED /\
     forall code, event_type oldest <> OTHER_EVENT code).
Proof.
  unfold queue_allowed. intros Hq. split; [|split].
  - unfold storybook_event_ros_message_handler.
    destruct (allowed (event_type data)) eqn:Hk; cbn [final]; [|exact Hq].
    unfold put, modify. cbn. apply Forall_app. split; [exact Hq|].
    constructor; [exact Hk | constructor].
  - rewrite consumer_turn_queue. apply Forall_tail. exact Hq.
  - intros oldest rest Hqueue. rewrite Hqueue in Hq.
    inversion Hq as [|? ? Hk _]; subst.
    split; [|intros code]; intros Heq; rewrite Heq in Hk;
      discriminate Hk.
Qed.

Lemma queue_holds_listed_kinds_witness :
  queue_allowed
    (final (storybook_event_ros_message_handler
              (mkEvent STORY_LOADED EmptyString) (init student0))) /\
  queue_allowed
    (final (storybook_event_ros_message_handler
              (mkEvent EVALUATE_MODE_SELECTED EmptyString)
              (init student0))).
Proof.
  split.
  - apply (queue_holds_listed_kinds decode0 lower0
             (mkEvent STORY_LOADED EmptyString) (init student0)).
    constructor.
  - apply (queue_holds_listed_kinds decode0 lower0
             (mkEvent EVALUATE_MODE_SELECTED EmptyString) (init student0)).
    constructor.
Defined.

(** X8. The loop of the consumer takes the messages in the order of
    their arrival and adds none: after any number of turns the queue is
    what is left of it after dropping the oldest messages, at most one
    per turn, and when the turns all return it has dropped one per
    turn. *)
Theorem process_main_event_queue_drains
    (json_loads : string -> option json)
    (str_lower : string -> string) (turns : nat) (s : fsm) :
  (exists k, (k <= turns)%nat /\
     event_queue (final (process_main_event_queue json_loads str_lower turns s))
       = drop k (event_queue s)) /\
  (forall s',
     process_main_event_queue json_loads str_lower turns s = Done tt s' ->
     event_queue s' = drop turns (event_queue s)).
Proof.
  revert s. induction turns as [|n IH]; intros s;
    cbn [process_main_event_queue].
  - split; [exists 0%nat; split; [lia | reflexivity]|].
    intros s' Hs'. injection Hs' as <-. reflexivity.
  - pose proof (consumer_turn_queue json_loads str_lower s) as Hturn.
    split.
    + rewrite final_bind.
      destruct (consumer_turn json_loads str_lower s) as [[] s1|e s1];
        cbn [final] in Hturn.
      * destruct (IH s1) as [(k & Hk & Hdrop) _].
        exists (S k). split; [lia|].
        rewrite Hdrop, Hturn.
        destruct (event_queue s); cbn [tail];
          [rewrite !drop_nil|]; reflexivity.
      * exists 1%nat. split; [lia|]. rewrite Hturn.
        destruct (event_queue s); reflexivity.
    + intros s' Hs'. unfold bind in Hs'.
      destruct (consumer_turn json_loads str_lower s) as [[] s1|e s1];
        cbn [final] in Hturn; [|discriminate Hs'].
      destruct (IH s1) as [_ Hdone].
      rewrite (Hdone s' Hs'), Hturn.
      destruct (event_queue s); cbn [tail];
        [rewrite !drop_nil|]; reflexivity.
Qed.

(** ** The catch-all rules *)

Lemma fire_absorbed (t : Trigger.t) (s : fsm) :
  absorbs t (state s) = true -> fire t s = Done true s.
Proof.
  intros Habs.
  destruct t; try discriminate Habs;
    destruct (state s) eqn:Hst; try discriminate Habs;
    pose proof Hst as Hst';
    fire_from Hst'; open_monad;
    rewrite <- Hst, set_state_current; reflexivity.
Qed.

(** X9. The catch-all rules absorb the out-of-band events: in a state
    where jibo_finish_tts, jibo_finish_child_asr or page_info_received
    has no rule of its own, the catch-all rule of the event is its only
    transition, and firing the event returns True and leaves the whole
    controller, its state included, as it was. *)
Theorem catch_all_absorbs (t : Trigger.t) (s : fsm) :
  absorbs t (state s) = true ->
  event_transitions transitions t (state s) =
    [ {| trigger := t; source := AnyState; dest := Same;
         conditions := []; before := []; after := [] |} ] /\
  fire t s = Done true s.
Proof.
  intros Habs. split; [|apply fire_absorbed; exact Habs].
  destruct t; try discriminate Habs;
    destruct (state s); try discriminate Habs; reflexivity.
Qed.

Lemma catch_all_absorbs_witness :
  fire Trigger.jibo_finish_tts (init student0) = Done true (init student0) /\
  fire Trigger.page_info_received (session END_STORY 3 1)
    = Done true (session END_STORY 3 1).
Proof.
  split.
  - apply (catch_all_absorbs Trigger.jibo_finish_tts (init student0)).
    reflexivity.
  - apply (catch_all_absorbs Trigger.page_info_received
             (session END_STORY 3 1)).
    reflexivity.
Defined.

Lemma jibo_finish_tts_returns (s : fsm) :
  exists s', jibo_finish_tts s = Done true s'.
Proof.
  unfold jibo_finish_tts.
  destruct (state s) eqn:Hst; fire_from Hst; open_monad;
    unfold tablet_next_page, start_child_audio_timer, tablet_begin_record,
      tablet_show_library_panel, ros_send;
    open_monad; eexists; reflexivity.
Qed.

Lemma jibo_finish_child_asr_returns (s : fsm) :
  exists s', jibo_finish_child_asr s = Done true s'.
Proof.
  unfold jibo_finish_child_asr.
  destruct (state s) eqn:Hst; fire_from Hst; open_monad;
    unfold jibo_respond_to_end_story, ros_send;
    open_monad; eexists; reflexivity.
Qed.

Lemma begin_evaluate_mode_returns (s : fsm) :
  begin_evaluate_mode s = Done true (set_state BEGIN_EVALUATE s).
Proof.
  unfold begin_evaluate_mode.
  destruct (state s) eqn:Hst; fire_from Hst; open_monad; reflexivity.
Qed.

(** [tablet_show_next_sentence], branch by branch. *)
Lemma tablet_show_next_sentence_reads (s : fsm) :
  tablet_show_next_sentence s =
  match current_page_number s with
  | None => Abort TypeError s
  | Some p =>
      if p <=? 0 then Abort (SystemExit 1) s else
      match reported_evaluating_sentence_index s with
      | None => Abort TypeError s
      | Some i =>
          match current_sentences s with
          | None => Abort TypeError s
          | Some l =>
              if (i + 1 <? 0) || (Z.of_nat (length l) <=? i + 1)
              then Abort (SystemExit 1) s
              else Done tt
                     (set_ros (ros s ++ [show_next_sentence_command s (i + 1)])
                        s)
          end
      end
  end.
Proof.
  unfold tablet_show_next_sentence, show_next_sentence_command, ros_send,
    bind, get, modify.
  destruct (current_page_number s) as [p|]; cbn [as_int]; [|reflexivity].
  unfold ret at 1. destruct (p <=? 0); [reflexivity|].
  destruct (reported_evaluating_sentence_index s) as [i|]; cbn [as_int];
    [|reflexivity].
  unfold ret at 1.
  destruct (i + 1 <? 0); cbn [orb].
  - unfold ret at 1.
    destruct (current_sentences s) eqn:Hl; cbn [len]; reflexivity.
  - destruct (current_sentences s) as [l|] eqn:Hl; cbn [len];
      [|reflexivity].
    unfold ret at 1. unfold ret at 1.
    destruct (Z.of_nat (length l) <=? i + 1); cbv beta;
      rewrite ?Hl; reflexivity.
Qed.

(** X10. The four triggers that have a rule for every state never find
    the machine without a transition: jibo_finish_tts and
    jibo_finish_child_asr return True from every state,
    begin_evaluate_mode returns True from every state and changes
    nothing but the state, which becomes BEGIN_EVALUATE, and
    page_info_received can only fail in WAITING_FOR_NEXT_PAGE, by the
    exit or the TypeError of tablet_show_next_sentence. *)
Theorem triggers_with_catch_all_are_always_taken (s : fsm) :
  (exists s', jibo_finish_tts s = Done true s') /\
  (exists s', jibo_finish_child_asr s = Done true s') /\
  begin_evaluate_mode s = Done true (set_state BEGIN_EVALUATE s) /\
  (forall e s', page_info_received s = Abort e s' ->
     state s = WAITING_FOR_NEXT_PAGE /\
     (e = SystemExit 1 \/ e = TypeError)).
Proof.
  split; [apply jibo_finish_tts_returns|].
  split; [apply jibo_finish_child_asr_returns|].
  split; [apply begin_evaluate_mode_returns|].
  intros e s' Hcall. unfold page_info_received in Hcall.
  destruct (absorbs Trigger.page_info_received (state s)) eqn:Habs.
  - rewrite (fire_absorbed _ s Habs) in Hcall.
    discriminate Hcall.
  - assert (Hst : state s = WAITING_FOR_NEXT_PAGE)
      by (destruct (state s); try discriminate Habs; reflexivity).
    split; [exact Hst|].
    revert Hcall. fire_from Hst. open_monad.
    rewrite tablet_show_next_sentence_reads.
    unfold start_child_audio_timer. open_monad. flatten.
    destruct (current_page_number s) as [p|]; [|intros [= <- _]; auto].
    destruct (p <=? 0); [intros [= <- _]; auto|].
    destruct (reported_evaluating_sentence_index s) as [i|];
      [|intros [= <- _]; auto].
    destruct (current_sentences s) as [l|]; [|intros [= <- _]; auto].
    destruct (_ || _); [intros [= <- _]; auto|].
    discriminate.
Qed.

(** ** The handlers of the robot's state *)

(** X11. The handler of JiboState messages never raises and always
    ends with jibo_tts_on equal to is_playing_sound; it fires
    jibo_finish_tts only when the robot was speaking and no longer is,
    and otherwise writes the flag and nothing else. *)
Theorem jibo_state_handler_tracks_tts (is_playing_sound : bool) (s : fsm) :
  exists s',
    jibo_state_ros_message_handler is_playing_sound s = Done tt s' /\
    jibo_tts_on s' = is_playing_sound /\
    (if negb is_playing_sound && jibo_tts_on s
     then exists s1, jibo_finish_tts s = Done true s1 /\
                     s' = set_jibo_tts_on is_playing_sound s1
     else s' = set_jibo_tts_on is_playing_sound s).
Proof.
  unfold jibo_state_ros_message_handler.
  unfold bind at 1, get at 1.
  destruct (negb is_playing_sound && jibo_tts_on s) eqn:Hedge.
  - destruct (jibo_finish_tts_returns s) as [s1 Hs1].
    exists (set_jibo_tts_on is_playing_sound s1).
    unfold bind, modify, ret. rewrite Hs1.
    split; [reflexivity|]. split; [reflexivity|].
    exists s1. split; reflexivity.
  - exists (set_jibo_tts_on is_playing_sound s).
    split; [reflexivity|]. split; reflexivity.
Qed.

(** X12. The handler of ASR results, on an empty transcription or on
    ASR_NOSPEECH, never raises and ends with jibo_asr_empty set; it
    fires jibo_finish_child_asr only when the flag was unset, and
    otherwise writes the flag and nothing else.  On any other
    transcription, outside WAITING_FOR_END_PAGE_CHILD_RESPONSE, it
    unsets the flag and does nothing else. *)
Theorem jibo_asr_handler_tracks_speech
    (ASR_NOSPEECH transcription : string) (s : fsm) :
  (transcription = EmptyString \/ transcription = ASR_NOSPEECH ->
   exists s',
     jibo_asr_ros_message_handler ASR_NOSPEECH transcription s
       = Done tt s' /\
     jibo_asr_empty s' = true /\
     (jibo_asr_empty s = true -> s' = set_jibo_asr_empty true s)) /\
  (transcription <> EmptyString -> transcription <> ASR_NOSPEECH ->
   state s <> WAITING_FOR_END_PAGE_CHILD_RESPONSE ->
   jibo_asr_ros_message_handler ASR_NOSPEECH transcription s
     = Done tt (set_jibo_asr_empty false s)).
Proof.
  unfold jibo_asr_ros_message_handler. split.
  - intros Hsilent.
    assert (Hif : String.eqb transcription EmptyString
                  || String.eqb transcription ASR_NOSPEECH = true).
    { destruct Hsilent as [-> | ->]; rewrite String.eqb_refl;
        [reflexivity | apply orb_true_r]. }
    rewrite Hif. unfold bind at 1, get at 1.
    destruct (jibo_asr_empty s) eqn:Hempty; cbn [negb].
    + exists (set_jibo_asr_empty true s).
      split; [reflexivity|]. split; reflexivity.
    + destruct (jibo_finish_child_asr_returns s) as [s1 Hs1].
      exists (set_jibo_asr_empty true s1).
      unfold bind, modify, ret. rewrite Hs1.
      split; [reflexivity|]. split; [reflexivity|]. discriminate.
  - intros Hne1 Hne2 Hst.
    apply String.eqb_neq in Hne1, Hne2. rewrite Hne1, Hne2. cbn [orb].
    unfold bind, modify, get. cbn [state set_jibo_asr_empty].
    rewrite bool_decide_eq_false_2 by exact Hst. reflexivity.
Qed.

Lemma jibo_asr_handler_tracks_speech_witness :
  (exists s',
     jibo_asr_ros_message_handler "NOSPEECH" "NOSPEECH"
       (set_jibo_asr_empty false
          (session WAITING_FOR_END_STORY_CHILD_AUDIO 3 1)) = Done tt s' /\
     jibo_asr_empty s' = true) /\
  jibo_asr_ros_message_handler "NOSPEECH" "cat"
    (session WAITING_FOR_CHILD_AUDIO 1 0)
  = Done tt (set_jibo_asr_empty false (session WAITING_FOR_CHILD_AUDIO 1 0)).
Proof.
  split.
  - destruct (jibo_asr_handler_tracks_speech "NOSPEECH" "NOSPEECH"
                (set_jibo_asr_empty false
                   (session WAITING_FOR_END_STORY_CHILD_AUDIO 3 1)))
      as [Hsilent _].
    destruct (Hsilent (or_intror eq_refl)) as (s' & Hcall & Hflag & _).
    exists s'. split; assumption.
  - apply (jibo_asr_handler_tracks_speech "NOSPEECH" "cat"
             (session WAITING_FOR_CHILD_AUDIO 1 0));
      discriminate.
Defined.

(** ** Showing the next sentence *)

(** X13. tablet_show_next_sentence sends a command only for a sentence
    of the page: it returns exactly when the page number is above 0 and
    the reported index plus one is an index of current_sentences, and
    then it has sent one SHOW_NEXT_SENTENCE command for that index and
    changed nothing else; in every other case it sends nothing, changes
    nothing, and ends with exit code 1 or, when an attribute it reads is
    None, with TypeError. *)
Theorem tablet_show_next_sentence_in_range (s : fsm) :
  match tablet_show_next_sentence s with
  | Done _ s' =>
      exists p i l,
        current_page_number s = Some p /\ 0 < p /\
        reported_evaluating_sentence_index s = Some i /\
        current_sentences s = Some l /\
        0 <= i + 1 < Z.of_nat (length l) /\
        s' = set_ros (ros s ++ [show_next_sentence_command s (i + 1)]) s
  | Abort e s' =>
      s' = s /\
      (e = SystemExit 1 \/ e = TypeError) /\
      ~ (exists p i l,
           current_page_number s = Some p /\ 0 < p /\
           reported_evaluating_sentence_index s = Some i /\
           current_sentences s = Some l /\
           0 <= i + 1 < Z.of_nat (length l))
  end.
Proof.
  rewrite tablet_show_next_sentence_reads.
  destruct (current_page_number s) as [p|] eqn:Hp.
  2: { split; [reflexivity|]. split; [auto|].
       intros (p & i & l & Hp' & _). discriminate Hp'. }
  destruct (p <=? 0) eqn:Hpos.
  { split; [reflexivity|]. split; [auto|].
    intros (p' & i & l & [= <-] & Hlt & _).
    apply Z.leb_le in Hpos. lia. }
  destruct (reported_evaluating_sentence_index s) as [i|] eqn:Hi.
  2: { split; [reflexivity|]. split; [auto|].
       intros (p' & i & l & _ & _ & Hi' & _). discriminate Hi'. }
  destruct (current_sentences s) as [l|] eqn:Hl.
  2: { split; [reflexivity|]. split; [auto|].
       intros (p' & i' & l & _ & _ & _ & Hl' & _). discriminate Hl'. }
  destruct ((i + 1 <? 0) || (Z.of_nat (length l) <=? i + 1)) eqn:Hout.
  - split; [reflexivity|]. split; [auto|].
    intros (p' & i' & l' & _ & _ & [= <-] & [= <-] & Hrange).
    apply orb_true_iff in Hout as [Hout|Hout];
      [apply Z.ltb_lt in Hout | apply Z.leb_le in Hout]; lia.
  - apply orb_false_iff in Hout as [Hlo Hhi].
    apply Z.ltb_ge in Hlo. apply Z.leb_gt in Hhi. apply Z.leb_gt in Hpos.
    exists p, i, l. repeat split; auto; lia.
Qed.

(** ** The handler of page information *)

(** X14. The handler of page information always records the page and
    tells the student model its sentences.  Outside
    WAITING_FOR_NEXT_PAGE it does nothing more and returns.  In
    WAITING_FOR_NEXT_PAGE the information of a page whose number is 0 or
    less, as the title page, ends the process with exit code 1, after
    the state has become WAITING_FOR_CHILD_AUDIO and before any timer is
    made. *)
Theorem page_info_handler_outside_and_on_title_page
    (data : StorybookPageInfo) (s : fsm) :
  let recorded :=
    set_student_calls
      (student_calls (student_model s) ++
       [update_sentences (page_number data) (sentences data)])
      (set_page (page_number data) (sentences data) (scene_objects data)
                (tinkertexts data) s) in
  (state s <> WAITING_FOR_NEXT_PAGE ->
   storybook_page_info_ros_message_handler data s = Done tt recorded) /\
  (state s = WAITING_FOR_NEXT_PAGE -> page_number data <= 0 ->
   storybook_page_info_ros_message_handler data s =
     Abort (SystemExit 1) (set_state WAITING_FOR_CHILD_AUDIO recorded)).
Proof.
  intros recorded.
  assert (Hcall : storybook_page_info_ros_message_handler data s =
                  (fire Trigger.page_info_received ;; ret tt) recorded)
    by reflexivity.
  rewrite Hcall. unfold bind at 1. clear Hcall.
  split.
  - intros Hst.
    rewrite (fire_absorbed Trigger.page_info_received recorded);
      [reflexivity|].
    change (state recorded) with (state s).
    destruct (state s); try reflexivity. contradiction.
  - intros Hst Hpage.
    assert (Hst' : state recorded = WAITING_FOR_NEXT_PAGE) by exact Hst.
    assert (Hfire : fire Trigger.page_info_received recorded =
              Abort (SystemExit 1)
                (set_state WAITING_FOR_CHILD_AUDIO recorded)).
    { fire_from Hst'. open_monad.
      rewrite tablet_show_next_sentence_reads. subst recorded. flatten.
      replace (page_number data <=? 0) with true
        by (symmetry; apply Z.leb_le; exact Hpage).
      reflexivity. }
    unfold bind. rewrite Hfire. reflexivity.
Qed.

Lemma page_info_handler_outside_and_on_title_page_witness :
  state (final (storybook_page_info_ros_message_handler
                  (mkPageInfo 2 ["The dog ran."] [] [])
                  (session WAITING_FOR_CHILD_AUDIO 1 0)))
    = WAITING_FOR_CHILD_AUDIO /\
  storybook_page_info_ros_message_handler
    (mkPageInfo 0 [] [] []) (session WAITING_FOR_NEXT_PAGE 1 (-1))
  = Abort (SystemExit 1)
      (set_state WAITING_FOR_CHILD_AUDIO
         (set_student_calls [update_sentences 0 []]
            (set_page 0 [] [] [] (session WAITING_FOR_NEXT_PAGE 1 (-1))))).
Proof.
  split.
  - destruct (page_info_handler_outside_and_on_title_page
                (mkPageInfo 2 ["The dog ran."] [] [])
                (session WAITING_FOR_CHILD_AUDIO 1 0)) as [Hout _].
    rewrite Hout; [reflexivity | discriminate].
  - apply (page_info_handler_outside_and_on_title_page
             (mkPageInfo 0 [] [] [])
             (session WAITING_FOR_NEXT_PAGE 1 (-1)));
      [reflexivity | simpl; lia].
Defined.

(** ** Conditions that raise, and actions that fail *)

(** X15. A condition that raises ends the event: the rule that follows
    is not tried.  In WAITING_FOR_CHILD_AUDIO with no reported index or
    no sentences, child_sentence_audio_complete raises TypeError, and
    so does child_end_page_response_complete in
    WAITING_FOR_END_PAGE_CHILD_RESPONSE with no page number or no page
    count; the controller is left as it was, in the same state. *)
Theorem raising_condition_ends_the_event (s : fsm) :
  (state s = WAITING_FOR_CHILD_AUDIO ->
   reported_evaluating_sentence_index s = None \/
   current_sentences s = None ->
   fire Trigger.child_sentence_audio_complete s = Abort TypeError s) /\
  (state s = WAITING_FOR_END_PAGE_CHILD_RESPONSE ->
   current_page_number s = None \/ num_story_pages s = None ->
   fire Trigger.child_end_page_response_complete s = Abort TypeError s).
Proof.
  split; intros Hst Hnone.
  - assert (Hguard : more_sentences_available s = Abort TypeError s).
    { rewrite more_sentences_available_reads.
      destruct Hnone as [-> | ->];
        [|destruct (reported_evaluating_sentence_index s)]; reflexivity. }
    fire_from Hst. open_monad. rewrite Hguard. reflexivity.
  - assert (Hguard : more_pages_available s = Abort TypeError s).
    { rewrite more_pages_available_reads.
      destruct Hnone as [-> | ->];
        [|destruct (current_page_number s)]; reflexivity. }
    fire_from Hst. open_monad. rewrite Hguard. reflexivity.
Qed.

Lemma raising_condition_ends_the_event_witness :
  fire Trigger.child_sentence_audio_complete
    (set_state WAITING_FOR_CHILD_AUDIO (init student0))
  = Abort TypeError (set_state WAITING_FOR_CHILD_AUDIO (init student0)) /\
  fire Trigger.child_end_page_response_complete
    (set_state WAITING_FOR_END_PAGE_CHILD_RESPONSE (init student0))
  = Abort TypeError
      (set_state WAITING_FOR_END_PAGE_CHILD_RESPONSE (init student0)).
Proof.
  split.
  - apply (raising_condition_ends_the_event
             (set_state WAITING_FOR_CHILD_AUDIO (init student0)));
      [reflexivity | left; reflexivity].
  - apply (raising_condition_ends_the_event
             (set_state WAITING_FOR_END_PAGE_CHILD_RESPONSE
                (init student0)));
      [reflexivity | left; reflexivity].
Defined.

(** X16. After the last sentence of a page, in WAITING_FOR_CHILD_AUDIO:
    when no Timer was ever assigned, stop_child_audio_timer raises
    AttributeError before the state changes and the controller is left
    as it was; when the student model has no end-page question,
    send_end_page_prompt raises IndexError after the Timer was
    cancelled and the state has become
    WAITING_FOR_END_PAGE_JIBO_QUESTION, leaving the index at 0 over an
    empty list. *)
Theorem last_sentence_without_timer_or_question (s : fsm) :
  state s = WAITING_FOR_CHILD_AUDIO ->
  more_sentences_available s = Done false s ->
  (child_audio_evaluate_timer s = None ->
   child_sentence_audio_complete s = Abort AttributeError s) /\
  (forall r,
     child_audio_evaluate_timer s = Some r ->
     get_end_page_questions (student_model s) = [] ->
     child_sentence_audio_complete s =
       Abort IndexError
         (set_end_page_question_idx (Some 0)
            (set_end_page_questions []
               (set_state WAITING_FOR_END_PAGE_JIBO_QUESTION
                  (set_timer (Some r) (alter cancel r (timers s)) s))))).
Proof.
  intros Hst Hguard.
  assert (Hcall : child_sentence_audio_complete s =
     (stop_child_audio_timer ;;
      modify (set_state WAITING_FOR_END_PAGE_JIBO_QUESTION) ;;
      send_end_page_prompt ;;
      ret true) s).
  { unfold child_sentence_audio_complete. fire_from Hst.
    open_monad. rewrite Hguard. by_cases. }
  rewrite Hcall. split.
  - intros Hnone. unfold stop_child_audio_timer, bind, get.
    rewrite Hnone. reflexivity.
  - intros r Hr Hq.
    unfold stop_child_audio_timer, send_end_page_prompt.
    open_monad. rewrite Hr. cbn. rewrite Hq. reflexivity.
Qed.

Lemma last_sentence_without_timer_or_question_witness :
  child_sentence_audio_complete (session WAITING_FOR_CHILD_AUDIO 1 1)
  = Abort AttributeError (session WAITING_FOR_CHILD_AUDIO 1 1) /\
  (exists s',
     child_sentence_audio_complete last_sentence_without_questions
       = Abort IndexError s' /\
     state s' = WAITING_FOR_END_PAGE_JIBO_QUESTION /\
     end_page_question_idx s' = Some 0 /\
     end_page_questions s' = [] /\
     List.map finished (timers s') = [true]).
Proof.
  split.
  - apply (last_sentence_without_timer_or_question
             (session WAITING_FOR_CHILD_AUDIO 1 1));
      reflexivity.
  - destruct (last_sentence_without_timer_or_question
                last_sentence_without_questions eq_refl eq_refl)
      as [_ Hprompt].
    eexists. split; [apply (Hprompt 0%nat); reflexivity|].
    repeat split.
Defined.

(** ** The current end-page question *)

(** X17. current_end_page_question returns the question at the index
    exactly when the index is set and within the list, and raises its
    exception otherwise, never an IndexError; try_answer_question, with
    no current question, raises that exception whatever the question
    type and the query, and leaves the controller as it was. *)
Theorem no_current_question_raises
    (qt : EndPageQuestionType) (query : jval) (s : fsm) :
  let absent := Exception_ "No end page question exists right now!" in
  match end_page_question_idx s with
  | None =>
      current_end_page_question s = Abort absent s /\
      try_answer_question qt query s = Abort absent s
  | Some i =>
      if (0 <=? i) && (i <? Z.of_nat (length (end_page_questions s)))
      then exists q,
             end_page_questions s !! Z.to_nat i = Some q /\
             current_end_page_question s = Done q s
      else current_end_page_question s = Abort absent s /\
           try_answer_question qt query s = Abort absent s
  end.
Proof.
  intros absent.
  unfold try_answer_question. unfold bind at 1.
  unfold current_end_page_question, bind, get.
  destruct (end_page_question_idx s) as [i|]; [|split; reflexivity].
  destruct (0 <=? i) eqn:Hlo; cbn [andb].
  - apply Z.leb_le in Hlo.
    replace (i <? 0) with false by (symmetry; apply Z.ltb_ge; lia).
    cbn [orb]. rewrite (Z.leb_antisym i (Z.of_nat _)).
    destruct (i <? Z.of_nat (length (end_page_questions s))) eqn:Hhi;
      cbn [negb]; [|split; reflexivity].
    apply Z.ltb_lt in Hhi.
    destruct (lookup_lt_is_Some_2 (end_page_questions s) (Z.to_nat i))
      as [q Hq]; [lia|].
    exists q. rewrite Hq. split; reflexivity.
  - apply Z.leb_gt in Hlo.
    replace (i <? 0) with true by (symmetry; apply Z.ltb_lt; lia).
    split; reflexivity.
Qed.

(** ** The handling of a dequeued message *)

(** X18. A SPEECH_ACE_RESULT message updates the student model with
    the duration and with the scoring result together, or not at all:
    a message that does not decode, or lacks one of index, text,
    duration and speechace, or whose speechace is not JSON text, raises
    before the first update and leaves the controller as it was.  A
    SENTENCE_SWIPED message never changes the controller. *)
Theorem speech_ace_result_updates_both_or_none
    (json_loads : string -> option json)
    (str_lower : string -> string) (text : string) (s : fsm) :
  match process_storybook_event json_loads str_lower
          (mkEvent SPEECH_ACE_RESULT text) s with
  | Done _ s' =>
      exists duration sentence result,
        s' = set_student_calls
               (student_calls (student_model s) ++
                [update_with_duration duration sentence;
                 update_with_speechace_result result])
               s
  | Abort e s' =>
      s' = s /\ (e = ValueError \/ e = KeyError \/ e = TypeError)
  end /\
  final (process_storybook_event json_loads str_lower
           (mkEvent SENTENCE_SWIPED text) s) = s.
Proof.
  unfold process_storybook_event, loads, item, student_do, bind, modify,
    ret, raise.
  cbn [event_type message]. split.
  - destruct (json_loads text) as [[v|fields]|]; [auto| |auto].
    destruct (assoc "index" fields); [|auto].
    destruct (assoc "text" fields) as [sentence|]; [|auto].
    destruct (assoc "duration" fields) as [duration|]; [|auto].
    destruct (assoc "speechace" fields) as [[| | |raw|]|]; auto.
    destruct (json_loads raw) as [result|]; [|auto].
    exists duration, sentence, result. cbn.
    rewrite <- app_assoc. reflexivity.
  - destruct (json_loads text) as [[v|fields]|]; [reflexivity| |reflexivity].
    destruct (assoc "index" fields); [|reflexivity].
    destruct (assoc "text" fields); reflexivity.
Qed.

(** X19. HELLO_WORLD is answered from every state: the handling sends
    PING_TEST, the ASR START command and SET_STORYBOOK_MODE with the
    evaluate mode, in this order, puts the machine in BEGIN_EVALUATE,
    and returns. *)
Theorem hello_world_begins_evaluate
    (json_loads : string -> option json)
    (str_lower : string -> string) (text : string) (s : fsm) :
  process_storybook_event json_loads str_lower (mkEvent HELLO_WORLD text) s =
    Done tt
      (set_state BEGIN_EVALUATE
         (set_ros
            (ros s ++
             [send_storybook_command PING_TEST
                (Some [("obj1", PInt 1); ("obj2", PInt 2)]);
              send_jibo_asr_command START;
              send_storybook_command SET_STORYBOOK_MODE
                (Some [("mode", PMode EVALUATE_MODE)])])
            s)).
Proof.
  unfold process_storybook_event. cbn [event_type].
  unfold ros_send, bind, modify. rewrite begin_evaluate_mode_returns.
  unfold ret. flatten. rewrite <- !app_assoc. reflexivity.
Qed.

(** X20. Messages whose trigger has no catch-all rule end the consumer
    when they arrive out of turn: STORY_LOADED outside
    WAITING_FOR_STORY_LOAD and RECORD_AUDIO_COMPLETE (with an index)
    outside WAITING_FOR_CHILD_AUDIO raise MachineError and leave the
    controller as it was; STORY_SELECTED (with needs_download) outside
    BEGIN_EVALUATE raises MachineError after needs_download was
    recorded. *)
Theorem out_of_turn_message_raises
    (json_loads : string -> option json)
    (str_lower : string -> string) (text : string)
    (fields : list (string * jval)) (v : jval) (s : fsm) :
  (state s <> WAITING_FOR_STORY_LOAD ->
   process_storybook_event json_loads str_lower (mkEvent STORY_LOADED text) s
     = Abort MachineError s) /\
  (json_loads text = Some (JObject fields) ->
   assoc "index" fields = Some v ->
   state s <> WAITING_FOR_CHILD_AUDIO ->
   process_storybook_event json_loads str_lower
     (mkEvent RECORD_AUDIO_COMPLETE text) s
     = Abort MachineError s) /\
  (json_loads text = Some (JObject fields) ->
   assoc "needs_download" fields = Some v ->
   state s <> BEGIN_EVALUATE ->
   process_storybook_event json_loads str_lower (mkEvent STORY_SELECTED text) s
     = Abort MachineError
         (set_current_story_needs_download (Some v) s)).
Proof.
  unfold process_storybook_event, loads, item. cbn [event_type message].
  split; [|split].
  - intros Hst. unfold bind, storybook_loaded.
    rewrite unmatched_is_machine_error; [reflexivity|].
    destruct (state s); try reflexivity. contradiction.
  - intros Hjson Hindex Hst. unfold bind at 1. rewrite Hjson.
    unfold ret at 1. unfold bind at 1. rewrite Hindex.
    unfold ret at 1. unfold bind, child_sentence_audio_complete.
    rewrite unmatched_is_machine_error; [reflexivity|].
    destruct (state s); try reflexivity. contradiction.
  - intros Hjson Hneeds Hst. unfold bind at 1. rewrite Hjson.
    unfold ret at 1. unfold bind at 1. rewrite Hneeds.
    unfold ret at 1. unfold bind, modify, storybook_selected.
    rewrite unmatched_is_machine_error; [reflexivity|].
    cbn [state set_current_story_needs_download].
    destruct (state s); try reflexivity. contradiction.
Qed.

Lemma out_of_turn_message_raises_witness :
  process_storybook_event decode0 lower0 (mkEvent STORY_LOADED EmptyString)
    (init student0) = Abort MachineError (init student0) /\
  process_storybook_event decode0 lower0
    (mkEvent RECORD_AUDIO_COMPLETE index_text)
    (session WAITING_FOR_END_PAGE_CHILD_RESPONSE 1 1)
  = Abort MachineError (session WAITING_FOR_END_PAGE_CHILD_RESPONSE 1 1) /\
  process_storybook_event decode0 lower0
    (mkEvent STORY_SELECTED no_download_text) (init student0)
  = Abort MachineError
      (set_current_story_needs_download (Some (JBool false))
         (init student0)).
Proof.
  split; [|split].
  - apply (out_of_turn_message_raises decode0 lower0 EmptyString [] JNull
             (init student0)).
    discriminate.
  - apply (out_of_turn_message_raises decode0 lower0 index_text
             [("index", JInt 0)] (JInt 0)
             (session WAITING_FOR_END_PAGE_CHILD_RESPONSE 1 1));
      [reflexivity | reflexivity | discriminate].
  - apply (out_of_turn_message_raises decode0 lower0 no_download_text
             [("needs_download", JBool false)] (JBool false)
             (init student0));
      [reflexivity | reflexivity | discriminate].
Defined.

(** X21. In explore mode a tapped word is taken through str.lower: the
    student model is told the lowered word and the robot is told to
    speak it, with the two numbers .5 and .45; nothing else changes and
    the handling returns.  A tapped scene object is reported to the
    student model, and then the handling raises NameError, because it
    speaks [word], which this branch never binds: the robot is told
    nothing. *)
Theorem taps_in_explore_mode
    (json_loads : string -> option json)
    (str_lower : string -> string) (text : string)
    (fields : list (string * jval)) (s : fsm) :
  current_storybook_mode s = Some EXPLORE_MODE ->
  json_loads text = Some (JObject fields) ->
  (forall w,
     assoc "word" fields = Some (JStr w) ->
     process_storybook_event json_loads str_lower (mkEvent WORD_TAPPED text) s =
       Done tt
         (set_ros
            (ros s ++
             [send_jibo_command SPEAK
                [PStr (str_lower w); PDec ".5"; PDec ".45"]])
            (set_student_calls
               (student_calls (student_model s) ++
                [update_with_explore_word_tapped (str_lower w)])
               s))) /\
  (forall id label,
     assoc "id" fields = Some id ->
     assoc "label" fields = Some label ->
     process_storybook_event json_loads str_lower
       (mkEvent SCENE_OBJECT_TAPPED text) s =
       Abort NameError
         (set_student_calls
            (student_calls (student_model s) ++
             [update_with_explore_scene_object_tapped label])
            s)).
Proof.
  intros Hmode Hjson.
  unfold process_storybook_event, loads, item, in_evaluate_mode,
    in_explore_mode, student_do, ros_send.
  cbn [event_type message]. split.
  - intros w Hw.
    unfold bind, get, modify, ret. rewrite Hjson, Hw, Hmode.
    rewrite bool_decide_eq_false_2 by discriminate.
    rewrite Hmode, bool_decide_eq_true_2 by reflexivity.
    reflexivity.
  - intros id label Hid Hlabel.
    unfold bind, get, modify, ret, raise.
    rewrite Hjson, Hid, Hlabel, Hmode.
    rewrite bool_decide_eq_false_2 by discriminate.
    rewrite Hmode, bool_decide_eq_true_2 by reflexivity.
    reflexivity.
Qed.

Lemma taps_in_explore_mode_witness :
  process_storybook_event decode0 lower0 (mkEvent WORD_TAPPED word_text)
    (set_story EXPLORE_MODE "cat_story" 3 (-1) false EmptyString
       (init student0))
  = Done tt
      (set_ros
         [send_jibo_command SPEAK [PStr "cat"; PDec ".5"; PDec ".45"]]
         (set_student_calls [update_with_explore_word_tapped "cat"]
            (set_story EXPLORE_MODE "cat_story" 3 (-1) false EmptyString
               (init student0)))).
Proof.
  destruct (taps_in_explore_mode decode0 lower0 word_text [("word", JStr "Cat")]
              (set_story EXPLORE_MODE "cat_story" 3 (-1) false EmptyString
                 (init student0)) eq_refl eq_refl) as [Hword _].
  rewrite (Hword "Cat" eq_refl). reflexivity.
Defined.

(** X22. In evaluate mode a tap is an answer or nothing: outside
    WAITING_FOR_END_PAGE_CHILD_RESPONSE a tapped word or scene object
    changes nothing and returns; in that state it is passed to
    try_answer_question, the word after str.lower under WORD_TAP, the
    label as it is under SCENE_OBJECT_TAP.  Neither reaches the explore
    updates of the student model. *)
Theorem taps_in_evaluate_mode
    (json_loads : string -> option json)
    (str_lower : string -> string) (text : string)
    (fields : list (string * jval)) (s : fsm) :
  current_storybook_mode s = Some EVALUATE_MODE ->
  json_loads text = Some (JObject fields) ->
  (forall w,
     assoc "word" fields = Some (JStr w) ->
     process_storybook_event json_loads str_lower (mkEvent WORD_TAPPED text) s =
       if bool_decide (state s = WAITING_FOR_END_PAGE_CHILD_RESPONSE)
       then try_answer_question WORD_TAP (JStr (str_lower w)) s
       else Done tt s) /\
  (forall id label,
     assoc "id" fields = Some id ->
     assoc "label" fields = Some label ->
     process_storybook_event json_loads str_lower
       (mkEvent SCENE_OBJECT_TAPPED text) s =
       if bool_decide (state s = WAITING_FOR_END_PAGE_CHILD_RESPONSE)
       then try_answer_question SCENE_OBJECT_TAP label s
       else Done tt s).
Proof.
  intros Hmode Hjson.
  unfold process_storybook_event, loads, item, in_evaluate_mode.
  cbn [event_type message]. split.
  - intros w Hw. unfold bind, get, ret. rewrite Hjson, Hw, Hmode.
    cbn [bool_decide]. rewrite bool_decide_eq_true_2 by reflexivity.
    destruct (bool_decide _); reflexivity.
  - intros id label Hid Hlabel.
    unfold bind, get, ret. rewrite Hjson, Hid, Hlabel, Hmode.
    rewrite bool_decide_eq_true_2 by reflexivity.
    destruct (bool_decide _); reflexivity.
Qed.

Lemma taps_in_evaluate_mode_witness :
  process_storybook_event decode0 lower0 (mkEvent WORD_TAPPED word_text)
    (session WAITING_FOR_CHILD_AUDIO 1 0)
  = Done tt (session WAITING_FOR_CHILD_AUDIO 1 0) /\
  state (final (process_storybook_event decode0 lower0
                  (mkEvent WORD_TAPPED word_text)
                  (session_with_question 1 1)))
  = WAITING_FOR_NEXT_PAGE_JIBO_INTERLUDE.
Proof.
  split.
  - destruct (taps_in_evaluate_mode decode0 lower0 word_text
                [("word", JStr "Cat")]
                (session WAITING_FOR_CHILD_AUDIO 1 0) eq_refl eq_refl)
      as [Hword _].
    rewrite (Hword "Cat" eq_refl). reflexivity.
  - destruct (taps_in_evaluate_mode decode0 lower0 word_text
                [("word", JStr "Cat")]
                (session_with_question 1 1) eq_refl eq_refl)
      as [Hword _].
    rewrite (Hword "Cat" eq_refl). reflexivity.
Defined.

(** ** Starting and stopping the timer *)

(** X23. stop_child_audio_timer cancels the Timer that the last
    start_child_audio_timer made, and no other: after a start and a
    stop the list of Timers is the old list followed by one cancelled
    Timer, which is the current one.  Stopping twice is stopping
    once. *)
Theorem stop_cancels_the_last_started (s : fsm) :
  (start_child_audio_timer ;; stop_child_audio_timer) s =
    Done tt
      (set_timer (Some (length (timers s)))
         (timers s ++
          [cancel (new_timer CHILD_AUDIO_SILENCE_TIMEOUT_SECONDS)])
         s) /\
  (stop_child_audio_timer ;; stop_child_audio_timer) s
    = stop_child_audio_timer s.
Proof.
  split.
  - unfold start_child_audio_timer, stop_child_audio_timer, bind, get,
      modify.
    flatten. f_equal. unfold set_timer. flatten. f_equal.
    rewrite <- (Nat.add_0_r (length (timers s))) at 1.
    rewrite alter_app_r. reflexivity.
  - unfold stop_child_audio_timer, bind, get, modify.
    destruct (child_audio_evaluate_timer s) as [r|] eqn:Hr;
      [|reflexivity].
    flatten. f_equal. unfold set_timer. flatten. f_equal.
    rewrite list_alter_alter_eq.
    apply list_alter_ext; [|reflexivity].
    intros t _. reflexivity.
Qed.
